(** * Verification of the Evergreen build-matrix generator

    A shallow embedding of [.evergreen/scripts/generate_config.py]:
    the host registry, the interpreter-path and display-name helpers, the
    cyclic zip, the variant factory and the two variant strategies, followed
    by the properties the specification states about them.

    Python strings are modelled as [string] (all compiled-in constants are
    ASCII, and [lower] is modelled on ASCII letters).  Python [dict]s are
    insertion-ordered association lists; the dict objects that are passed
    around by reference (the [expansions] mappings) live in an explicit heap,
    so that aliasing and in-place mutation are visible.  Exceptions are an
    error result. *)

From Stdlib Require Import ZArith Lia Ascii.
From stdpp Require Import base list strings.

Open Scope Z_scope.
Open Scope nat_scope.

(** ** Strings *)

Module Str.

(** [s.replace(old, new)] for a one-character [old]. *)
Fixpoint replace (old : ascii) (new : string) (s : string) : string :=
  match s with
  | EmptyString => EmptyString
  | String c rest =>
      if Ascii.eqb c old then new +:+ replace old new rest
      else String c (replace old new rest)
  end.

Definition lower_char (c : ascii) : ascii :=
  let n := nat_of_ascii c in
  if (65 <=? n) && (n <=? 90) then ascii_of_nat (n + 32) else c.

(** [s.lower()] on ASCII text: only the letters A to Z change.  What is
    proved of [lower] alone is stated for ASCII text. *)
Fixpoint lower (s : string) : string :=
  match s with
  | EmptyString => EmptyString
  | String c rest => String (lower_char c) (lower rest)
  end.

(** [s.startswith(p)] *)
Definition startswith (s p : string) : bool := String.prefix p s.

(** [x in xs] for a list of strings *)
Definition mem (x : string) (xs : list string) : bool :=
  existsb (String.eqb x) xs.

(** [s[n:]] for [n >= 0] *)
Fixpoint drop (n : nat) (s : string) : string :=
  match n, s with
  | O, _ => s
  | S _, EmptyString => EmptyString
  | S n', String _ rest => drop n' rest
  end.

(** ["sep".join(xs)] *)
Fixpoint join (sep : string) (xs : list string) : string :=
  match xs with
  | [] => EmptyString
  | [x] => x
  | x :: rest => x +:+ sep +:+ join sep rest
  end.

Definition LF : ascii := ascii_of_nat 10.
Definition CR : ascii := ascii_of_nat 13.

(** The ASCII line boundaries of [str.splitlines]; the three beyond ASCII
    (U+0085, U+2028, U+2029) are not characters of this model, and what is
    proved of [splitlines] is stated for ASCII text. *)
Definition is_linebreak (c : ascii) : bool :=
  let n := nat_of_ascii c in
  (n =? 10) || (n =? 11) || (n =? 12) || (n =? 13)
  || (n =? 28) || (n =? 29) || (n =? 30).

Fixpoint splitlines_from (line : string) (after_cr : bool) (s : string)
  : list string :=
  match s with
  | EmptyString => if String.eqb line "" then [] else [line]
  | String c rest =>
      if Ascii.eqb c LF && after_cr then splitlines_from "" false rest
      else if is_linebreak c then
        line :: splitlines_from "" (Ascii.eqb c CR) rest
      else splitlines_from (line +:+ String c "") false rest
  end.

(** [s.splitlines()] on ASCII text; ["\r\n"] counts as one boundary. *)
Definition splitlines (s : string) : list string :=
  splitlines_from "" false s.

End Str.

(** ** Exceptions and results *)

Inductive exn : Type :=
| KeyError (key : string)
| ValueError (msg : string)
| TypeError (msg : string)
| DanglingRef (a : nat).   (* a reference to no object: not reachable from Python *)

Inductive result (A : Type) : Type :=
| Ok (a : A)
| Err (e : exn).
Arguments Ok {A} a.
Arguments Err {A} e.

Definition rbind {A B} (r : result A) (k : A -> result B) : result B :=
  match r with
  | Ok a => k a
  | Err e => Err e
  end.

Notation "'do?' x <- r ;; k" := (rbind r (fun x => k))
  (at level 10, x name, r at level 99, k at level 200).

Definition is_err {A} (r : result A) : Prop :=
  match r with Ok _ => False | Err _ => True end.

(** ** Dictionaries: insertion-ordered association lists *)

Abbreviation pydict := (list (string * string)).

Module Dict.

(** [d.get(k)] / [d[k]] *)
Fixpoint get (k : string) (d : pydict) : option string :=
  match d with
  | [] => None
  | (k', v) :: rest => if String.eqb k k' then Some v else get k rest
  end.

(** [d[k] = v]: an existing key keeps its position, a new key goes last. *)
Fixpoint set (k v : string) (d : pydict) : pydict :=
  match d with
  | [] => [(k, v)]
  | (k', v') :: rest =>
      if String.eqb k k' then (k', v) :: rest else (k', v') :: set k v rest
  end.

(** [d.update(other)] *)
Definition update (d other : pydict) : pydict :=
  fold_left (fun acc kv => set (fst kv) (snd kv) acc) other d.

(** [k in d] *)
Definition mem (k : string) (d : pydict) : bool :=
  match get k d with Some _ => true | None => false end.

(** [dict(k1=v1, ...)] built from keyword arguments in order *)
Definition of_items (items : pydict) : pydict := update [] items.

End Dict.

(** ** The heap of dict objects and the state-and-exception monad *)

Abbreviation addr := nat (only parsing).
Abbreviation heap := (list pydict).

Definition M (A : Type) : Type := heap -> result A * heap.

Definition ret {A} (a : A) : M A := fun h => (Ok a, h).
Definition raise {A} (e : exn) : M A := fun h => (Err e, h).
Definition lift {A} (r : result A) : M A := fun h => (r, h).

Definition bind {A B} (m : M A) (k : A -> M B) : M B :=
  fun h =>
    match m h with
    | (Ok a, h') => k a h'
    | (Err e, h') => (Err e, h')
    end.

Notation "'do' x <- m ;; k" := (bind m (fun x => k))
  (at level 10, x name, m at level 99, k at level 200).
Notation "'exec' m ;; k" := (bind m (fun _ => k))
  (at level 10, m at level 99, k at level 200).

(** [dict(...)] / [d.copy()]: a fresh object holding [d] *)
Definition new_dict (d : pydict) : M addr :=
  fun h => (Ok (length h), h ++ [d]).

Definition read_dict (a : addr) : M pydict :=
  fun h =>
    match h !! a with
    | Some d => (Ok d, h)
    | None => (Err (DanglingRef a), h)
    end.

(** in-place mutation of the object at [a] *)
Definition modify_dict (a : addr) (f : pydict -> pydict) : M unit :=
  fun h =>
    match h !! a with
    | Some d => (Ok tt, <[a := f d]> h)
    | None => (Err (DanglingRef a), h)
    end.

(** [for x in xs: body], the body threading the loop-carried variables [s] *)
Fixpoint for_in {A S} (xs : list A) (body : A -> S -> M S) (s : S) : M S :=
  match xs with
  | [] => ret s
  | x :: rest =>
      do s' <- body x s ;;
      for_in rest body s'
  end.

(** ** Globals *)

Definition ALL_VERSIONS : list string :=
  ["4.0"; "4.4"; "5.0"; "6.0"; "7.0"; "8.0"; "rapid"; "latest"].
Definition CPYTHONS : list string := ["3.9"; "3.10"; "3.11"; "3.12"; "3.13"].
Definition PYPYS : list string := ["pypy3.9"; "pypy3.10"].
Definition ALL_PYTHONS : list string := CPYTHONS ++ PYPYS.
(** [xs[0]] and [xs[-1]]; the constant lists they are applied to are non-empty *)
Definition first (xs : list string) : string := List.hd ""%string xs.
Definition last (xs : list string) : string := List.last xs ""%string.
Definition MIN_MAX_PYTHON : list string := [first CPYTHONS; last CPYTHONS].
Definition BATCHTIME_WEEK : Z := 10080.
Definition AUTH_SSLS : list (string * string) :=
  [("auth", "ssl"); ("noauth", "ssl"); ("noauth", "nossl")].
Definition TOPOLOGIES : list string :=
  ["standalone"; "replica_set"; "sharded_cluster"].
Definition SYNCS : list string := ["sync"; "async"].
Definition DISPLAY_LOOKUP : list (string * pydict) :=
  [ ("ssl", [("ssl", "SSL"); ("nossl", "NoSSL")]);
    ("auth", [("auth", "Auth"); ("noauth", "NoAuth")]);
    ("test_suites", [("default", "Sync"); ("default_async", "Async")]);
    ("coverage", [("coverage", "cov")]) ].

Record Host : Type := mkHost {
  host_name : string;
  host_run_on : string;
  host_display_name : string;
  host_expansions : addr       (* a reference: four hosts share one dict *)
}.

(** Module initialisation allocates [_macos_expansions] first and the
    [dict()] of the rhel8 host second. *)
Definition macos_expansions_ref : addr := 0.
Definition rhel8_expansions_ref : addr := 1.
Definition _macos_expansions : pydict := [("SKIP_CSOT_TESTS", "true")].
Definition init_heap : heap := [_macos_expansions; []].

Definition HOSTS : list (string * Host) :=
  [ ("rhel8", mkHost "rhel8" "rhel87-small" "RHEL8" rhel8_expansions_ref);
    ("win64", mkHost "win64" "windows-64-vsMulti-small" "Win64" macos_expansions_ref);
    ("win32", mkHost "win32" "windows-64-vsMulti-small" "Win32" macos_expansions_ref);
    ("macos", mkHost "macos" "macos-14" "macOS" macos_expansions_ref);
    ("macos-arm64", mkHost "macos-arm64" "macos-14-arm64" "macOS Arm64" macos_expansions_ref) ].

Fixpoint assoc {V} (k : string) (l : list (string * V)) : option V :=
  match l with
  | [] => None
  | (k', v) :: rest => if String.eqb k k' then Some v else assoc k rest
  end.

(** [k in table] *)
Definition has_key {V} (k : string) (table : list (string * V)) : bool :=
  match assoc k table with Some _ => true | None => false end.

(** [table[k]], raising [KeyError] *)
Definition subscript {V} (table : list (string * V)) (k : string) : result V :=
  match assoc k table with
  | Some v => Ok v
  | None => Err (KeyError k)
  end.

(** ** Helpers *)

Definition get_python_binary (python host : string) : result string :=
  if Str.mem host ["win64"; "win32"] then
    let base := if String.eqb host "win32" then "C:/python/32" else "C:/python" in
    let python := Str.replace "." "" python in
    Ok (base +:+ "/Python" +:+ python +:+ "/python.exe")
  else if String.eqb host "rhel8" then
    Ok ("/opt/python/" +:+ python +:+ "/bin/python3")
  else if Str.mem host ["macos"; "macos-arm64"] then
    Ok ("/Library/Frameworks/Python.Framework/Versions/" +:+ python +:+ "/bin/python3")
  else
    Err (ValueError ("no match found for python " +:+ python +:+ " on " +:+ host)).

(** The body of the loop of [get_display_name]: the token of one binding. *)
Definition axis_token (key value : string) : result string :=
  if String.eqb key "version" then
    if negb (Str.mem value ["rapid"; "latest"]) then Ok ("v" +:+ value)
    else Ok value
  else if String.eqb key "python" then
    if negb (Str.startswith value "pypy") then Ok ("py" +:+ value)
    else Ok value
  else if has_key (Str.lower key) DISPLAY_LOOKUP then
    do? table <- subscript DISPLAY_LOOKUP (Str.lower key) ;;
    subscript table value
  else
    Err (ValueError ("Missing display handling for " +:+ key)).

Fixpoint display_loop (display_name : string) (kwargs : pydict) : result string :=
  match kwargs with
  | [] => Ok display_name
  | (key, value) :: rest =>
      do? name <- axis_token key value ;;
      display_loop (display_name +:+ " " +:+ name) rest
  end.

Definition get_display_name (base host : string) (kwargs : pydict) : result string :=
  do? h <- subscript HOSTS host ;;
  display_loop (base +:+ " " +:+ host_display_name h) kwargs.

(** ** Combinatorial enumeration *)

Section Itertools.
Context {A : Type}.

(** [itertools.cycle(xs)]: the first pass yields the elements of [xs] and
    saves them; once [xs] is exhausted the saved copy is replayed for ever.
    Over an empty input the iterator is exhausted at once. *)
Inductive cycle_iter : Type :=
| FirstPass (pending saved : list A)
| Replay (pending saved : list A).

Definition cycle (xs : list A) : cycle_iter := FirstPass xs [].

(** One [next] on a cycle: the element, if any, and the advanced iterator. *)
Definition cycle_next (it : cycle_iter) : option A * cycle_iter :=
  match it with
  | FirstPass (x :: rest) saved => (Some x, FirstPass rest (saved ++ [x]))
  | Replay (x :: rest) saved => (Some x, Replay rest saved)
  | FirstPass [] saved | Replay [] saved =>
      match saved with
      | x :: rest => (Some x, Replay rest saved)
      | [] => (None, it)
      end
  end.

(** [next(it, default)] *)
Definition next (it : cycle_iter) (default : A) : A * cycle_iter :=
  match cycle_next it with
  | (Some x, it') => (x, it')
  | (None, it') => (default, it')
  end.

Definition max_length (iterables : list (list A)) : nat :=
  foldr Nat.max 0 (map length iterables).

(** [itertools.zip_longest] applied to the iterables, as lists: as many rows as the
    longest input has elements, exhausted inputs filled with [None]. *)
Definition zip_longest (iterables : list (list A)) : list (list (option A)) :=
  map (fun i => map (fun xs => xs !! i) iterables) (seq 0 (max_length iterables)).

(** [tuple(next(i, empty_default) for i in cycles)], advancing every cycle *)
Fixpoint next_all (cycles : list cycle_iter) (empty_default : A)
  : list A * list cycle_iter :=
  match cycles with
  | [] => ([], [])
  | c :: rest =>
      let (x, c') := next c empty_default in
      let (xs, rest') := next_all rest empty_default in
      (x :: xs, c' :: rest')
  end.

(** The [for _ in zip_longest(...)] loop: one tuple per row. *)
Fixpoint zip_cycle_loop (rows : list (list (option A)))
    (cycles : list cycle_iter) (empty_default : A) : list (list A) :=
  match rows with
  | [] => []
  | _ :: rows' =>
      let (t, cycles') := next_all cycles empty_default in
      t :: zip_cycle_loop rows' cycles' empty_default
  end.

(** A tuple is modelled as the list of its slots. *)
Definition zip_cycle (iterables : list (list A)) (empty_default : A)
  : list (list A) :=
  let cycles := map cycle iterables in
  zip_cycle_loop (zip_longest iterables) cycles empty_default.

End Itertools.

(** [itertools.product(xs, ys)] *)
Definition product {A B} (xs : list A) (ys : list B) : list (A * B) :=
  flat_map (fun x => map (fun y => (x, y)) ys) xs.

(** ** The variant factory *)

(** Values of the keyword arguments that are passed through to the record. *)
Inductive pyval : Type :=
| VInt (n : Z)
| VStr (s : string)
| VStrList (xs : list string).

Record EvgTaskRef : Type := mkEvgTaskRef { task_name : string }.

(** [shrub.v3.evg_build_variant.BuildVariant], as far as the script fills it
    in.  [expansions] is [None] when the field is absent; the keyword
    arguments that [create_variant] passes on ([batchtime], [tags], ...) are
    kept in [extra] as they were given. *)
Record BuildVariant : Type := mkBuildVariant {
  name : string;
  display_name : string;
  tasks : list EvgTaskRef;
  expansions : option pydict;
  run_on : list string;
  extra : list (string * pyval)
}.

(** Truthiness of an optional string: [None] and [""] are falsy. *)
Definition truthy (o : option string) : option string :=
  match o with
  | Some s => if String.eqb s "" then None else Some s
  | None => None
  end.

(** [d or None]: an empty dict is falsy. *)
Definition or_none (d : pydict) : option pydict :=
  match d with
  | [] => None
  | _ :: _ => Some d
  end.

(** The keywords that [create_variant] itself passes to [BuildVariant]. *)
Definition BUILD_VARIANT_KEYWORDS : list string :=
  ["name"; "display_name"; "tasks"; "expansions"; "run_on"].

(** The first keyword of [kwargs] that the call
    [BuildVariant(name=.., display_name=.., tasks=.., expansions=..,
    run_on=.., **kwargs)] would receive twice. *)
Definition repeated_keyword (kwargs : list (string * pyval)) : option string :=
  match List.find (fun kv => Str.mem (fst kv) BUILD_VARIANT_KEYWORDS) kwargs with
  | Some kv => Some (fst kv)
  | None => None
  end.

(** [create_variant(task_names, display_name, python=.., version=.., host=..,
    expansions=.., **kwargs)].  The [expansions] keyword, when given, is a
    reference to a dict object; [kwargs] holds the other keyword arguments.
    The final call of [BuildVariant] raises [TypeError] when [kwargs] names
    a field that the function passes itself. *)
Definition create_variant (task_names : list string) (display_name : string)
    (python version host : option string) (expansions : option addr)
    (kwargs : list (string * pyval)) : M BuildVariant :=
  let task_refs := map mkEvgTaskRef task_names in
  (* kwargs.setdefault("expansions", dict()) *)
  do fresh <- new_dict [] ;;
  let supplied := match expansions with Some a => a | None => fresh end in
  (* expansions = kwargs.pop("expansions", dict()).copy() *)
  do unused <- new_dict [] ;;
  do contents <- read_dict supplied ;;
  do expansions <- new_dict contents ;;
  let host := match truthy host with Some h => h | None => "rhel8"%string end in
  do profile <- lift (subscript HOSTS host) ;;
  let run_on := [host_run_on profile] in
  let name := Str.lower (Str.replace " " "-" display_name) in
  exec (match truthy python with
        | Some python =>
            do binary <- lift (get_python_binary python host) ;;
            modify_dict expansions (Dict.set "PYTHON_BINARY" binary)
        | None => ret tt
        end) ;;
  exec (match truthy version with
        | Some version => modify_dict expansions (Dict.set "VERSION" version)
        | None => ret tt
        end) ;;
  do defaults <- read_dict (host_expansions profile) ;;
  exec modify_dict expansions (fun d => Dict.update d defaults) ;;
  do merged <- read_dict expansions ;;
  let expansions := or_none merged in
  match repeated_keyword kwargs with
  | Some keyword =>
      raise (TypeError ("BuildVariant() got multiple values for keyword argument '"
                        +:+ keyword +:+ "'"))
  | None =>
      ret (mkBuildVariant name display_name task_refs expansions run_on kwargs)
  end.

(** Binding of a call [get_display_name(args..., **kwargs)] to the signature
    [(base, host, **kwargs)]: at most two positional arguments, each
    parameter bound exactly once. *)
Definition call_get_display_name (args : list string) (kwargs : pydict)
  : result string :=
  let without k := filter (fun kv => negb (String.eqb (fst kv) k)) in
  match args with
  | [] =>
      match Dict.get "base" kwargs, Dict.get "host" kwargs with
      | Some base, Some host =>
          get_display_name base host (without "host"%string (without "base"%string kwargs))
      | _, _ => Err (TypeError "get_display_name() missing required positional arguments")
      end
  | [base] =>
      if Dict.mem "base" kwargs then
        Err (TypeError "get_display_name() got multiple values for argument 'base'")
      else
        match Dict.get "host" kwargs with
        | Some host => get_display_name base host (without "host"%string kwargs)
        | None => Err (TypeError "get_display_name() missing 1 required positional argument: 'host'")
        end
  | [base; host] =>
      if Dict.mem "base" kwargs then
        Err (TypeError "get_display_name() got multiple values for argument 'base'")
      else if Dict.mem "host" kwargs then
        Err (TypeError "get_display_name() got multiple values for argument 'host'")
      else get_display_name base host kwargs
  | _ => Err (TypeError "get_display_name() takes 2 positional arguments but more were given")
  end.

(** ** Variants *)

(** The values the axis lists hold: a string, an (auth, ssl) pair, or the
    [None] that [zip_cycle] uses for [empty_default]. *)
Inductive item : Type :=
| IStr (s : string)
| IPair (a b : string)
| INone.

#[global] Instance item_eq_dec : EqDecision item.
Proof. solve_decision. Defined.

(** [xs[1:-1]] and [xs[:-1]] *)
Definition slice_1_m1 {A} (xs : list A) : list A := removelast (tail xs).
Definition slice_m1 {A} (xs : list A) : list A := removelast xs.

Definition unpack_error {A} : M A :=
  raise (TypeError "cannot unpack the loop item").

Definition create_ocsp_variants : M (list BuildVariant) :=
  let variants : list BuildVariant := [] in
  let batchtime := (BATCHTIME_WEEK * 2)%Z in
  do expansions <- new_dict
       (Dict.of_items [("AUTH", "noauth"); ("SSL", "ssl"); ("TOPOLOGY", "server")]) ;;
  let base_display := "OCSP test"%string in
  (* OCSP tests on rhel8 with all servers v4.4+ and all python versions. *)
  let versions := filter (fun v => negb (String.eqb v "4.0")) ALL_VERSIONS in
  do variants <-
    for_in (zip_cycle [map IStr versions; map IStr ALL_PYTHONS] INone)
      (fun t variants =>
         match t with
         | [IStr version; IStr python] =>
             let host := "rhel8"%string in
             do display <- lift (call_get_display_name
                                   [base_display; host; version; python] []) ;;
             do variant <- create_variant [".ocsp"%string] display
                             (Some python) (Some version) (Some host)
                             (Some expansions) [("batchtime"%string, VInt batchtime)] ;;
             ret (variants ++ [variant])
         | _ => unpack_error
         end)
      variants ;;
  (* OCSP tests on Windows and MacOS. *)
  do variants <-
    for_in (product ["win64"; "macos"] ["4.4"; "8.0"])%string
      (fun '(host, version) variants =>
         let python := if String.eqb version "4.4" then first CPYTHONS
                       else last CPYTHONS in
         do display <- lift (call_get_display_name
                               [base_display; host; version; python] []) ;;
         do variant <- create_variant [".ocsp-rsa !.ocsp-staple"%string] display
                         (Some python) (Some version) (Some host)
                         (Some expansions) [("batchtime"%string, VInt batchtime)] ;;
         ret (variants ++ [variant]))
      variants ;;
  ret variants.

Definition create_server_variants : M (list BuildVariant) :=
  let variants : list BuildVariant := [] in
  (* Run the full matrix on linux with min and max CPython, and latest pypy. *)
  let host := "rhel8"%string in
  do variants <-
    for_in (product (MIN_MAX_PYTHON ++ [last PYPYS]) AUTH_SSLS)
      (fun '(python, (auth, ssl)) variants =>
         let display_name := ("Test " +:+ host)%string in
         do expansions <- new_dict
              (Dict.of_items [("AUTH", auth); ("SSL", ssl); ("COVERAGE", "coverage")]) ;;
         do bindings <- read_dict expansions ;;
         do display_name <- lift (call_get_display_name ["Test"; host]
                                    (("python", python) :: bindings)) ;;
         do variant <- create_variant (map (fun t => "." +:+ t) TOPOLOGIES)
                         display_name (Some python) None (Some host)
                         (Some expansions)
                         [("tags"%string, VStrList ["coverage_tag"%string])] ;;
         ret (variants ++ [variant]))
      variants ;;
  (* Test the rest of the pythons on linux. *)
  do variants <-
    for_in (zip_cycle [map IStr (slice_1_m1 CPYTHONS ++ slice_m1 PYPYS);
                       map (fun p => IPair (fst p) (snd p)) AUTH_SSLS;
                       map IStr TOPOLOGIES] INone)
      (fun t variants =>
         match t with
         | [IStr python; IPair auth ssl; IStr topology] =>
             let display_name := ("Test " +:+ host)%string in
             do expansions <- new_dict (Dict.of_items [("AUTH", auth); ("SSL", ssl)]) ;;
             do bindings <- read_dict expansions ;;
             do display_name <- lift (call_get_display_name ["Test"; host]
                                        (("python", python) :: bindings)) ;;
             do variant <- create_variant ["." +:+ topology] display_name
                             (Some python) None (Some host) (Some expansions) [] ;;
             ret (variants ++ [variant])
         | _ => unpack_error
         end)
      variants ;;
  (* Test a subset on each of the other platforms. *)
  do variants <-
    for_in ["macos"; "macos-arm64"; "win64"; "win32"]%string
      (fun host variants =>
         for_in (product (zip_cycle [map IStr MIN_MAX_PYTHON;
                                     map (fun p => IPair (fst p) (snd p)) AUTH_SSLS;
                                     map IStr TOPOLOGIES] INone) SYNCS)
           (fun '(t, sync) variants =>
              match t with
              | [IStr python; IPair auth ssl; IStr topology] =>
                  let test_suite := if String.eqb sync "sync" then "default"%string
                                    else "default_async"%string in
                  do expansions <- new_dict
                       (Dict.of_items [("AUTH", auth); ("SSL", ssl);
                                       ("TEST_SUITES", test_suite)]) ;;
                  do bindings <- read_dict expansions ;;
                  do display_name <- lift (call_get_display_name ["Test"; host]
                                             (("python", python) :: bindings)) ;;
                  do variant <- create_variant ["." +:+ topology] display_name
                                  (Some python) None (Some host) (Some expansions) [] ;;
                  ret (variants ++ [variant])
              | _ => unpack_error
              end)
           variants)
      variants ;;
  ret variants.

(** ** Generate config *)

Section Emission.
(** [ShrubService.generate_yaml] applied to the project that holds the
    variants: the serializer is an external collaborator. *)
Variable shrub_generate_yaml : list BuildVariant -> string.

(** [generate_yaml(variants=...)]: the text that is printed. *)
Definition generate_yaml (variants : list BuildVariant) : string :=
  let out := shrub_generate_yaml variants in
  (* Dedent by two spaces to match what we use in config.yml *)
  let lines := map (Str.drop 2) (Str.splitlines out) in
  Str.join (String Str.LF "") lines +:+ String Str.LF "".

(** The statement at the end of the script. *)
Definition generate_config : M string :=
  do variants <- create_server_variants ;;
  ret (generate_yaml variants).
End Emission.

(** * Specification-level definitions

    The functions and predicates in which the properties below are stated. *)

(** ** Display names *)

(** The tokens of a list of bindings, in order, when each one formats. *)
Fixpoint axis_tokens (kwargs : pydict) : result (list string) :=
  match kwargs with
  | [] => Ok []
  | (key, value) :: rest =>
      do? t <- axis_token key value ;;
      do? ts <- axis_tokens rest ;;
      Ok (t :: ts)
  end.

Definition append_tokens (prefix : string) (tokens : list string) : string :=
  fold_left (fun acc t => acc +:+ " " +:+ t) tokens prefix.

(** ** The cyclic zip *)

Section CycleSpec.
Context {A : Type}.
Implicit Types (xs : list A) (it : @cycle_iter A).

(** The cycle after [k] calls of [next]. *)
Definition advance (k : nat) it : cycle_iter :=
  Nat.iter k (fun it => snd (cycle_next it)) it.

(** What [next(it, d)] yields at the [i]-th call on the cycle over [xs]. *)
Definition slot xs (d : A) (i : nat) : A :=
  match xs with
  | [] => d
  | _ => default d (xs !! (i mod length xs))
  end.

(** [it] is a cycle over [xs] that is about to yield position [p]. *)
Inductive at_position xs : nat -> cycle_iter -> Prop :=
| at_first p :
    p < length xs -> at_position xs p (FirstPass (drop p xs) (take p xs))
| at_wrap :
    xs <> [] -> at_position xs 0 (FirstPass [] xs)
| at_replay p :
    p < length xs -> at_position xs p (Replay (drop p xs) xs)
| at_rewrap :
    xs <> [] -> at_position xs 0 (Replay [] xs).
End CycleSpec.

(** ** The variant factory *)

(** The contents of the local copy at the end of [create_variant]. *)
Definition merged_expansions (python version : option string) (binary : string)
    (caller defaults : pydict) : pydict :=
  let with_python :=
    match truthy python with
    | Some _ => Dict.set "PYTHON_BINARY" binary caller
    | None => caller
    end in
  let with_version :=
    match truthy version with
    | Some v => Dict.set "VERSION" v with_python
    | None => with_python
    end in
  Dict.update with_version defaults.

Definition host_or_default (host : option string) : string :=
  match truthy host with Some h => h | None => "rhel8"%string end.

(** What the caller's [expansions] keyword holds in heap [h]. *)
Definition caller_holds (h : heap) (expansions : option nat) (caller : pydict) : Prop :=
  match expansions with
  | Some a => h !! a = Some caller
  | None => caller = []
  end.

(** What a key holds before the host defaults are merged in. *)
Definition injected_lookup (python version : option string) (binary : string)
    (caller : pydict) (k : string) : option string :=
  let from_caller := Dict.get k caller in
  let with_python :=
    match truthy python with
    | Some _ => if String.eqb k "PYTHON_BINARY" then Some binary else from_caller
    | None => from_caller
    end in
  match truthy version with
  | Some v => if String.eqb k "VERSION" then Some v else with_python
  | None => with_python
  end.

(** The lookup of a key in the [expansions] field of a variant. *)
Definition expansion (v : BuildVariant) (k : string) : option string :=
  match expansions v with
  | Some d => Dict.get k d
  | None => None
  end.

(** A heap in which a caller's mapping collides with a host default. *)
Definition collision_heap : heap :=
  init_heap ++ [[("AUTH", "auth"); ("SKIP_CSOT_TESTS", "false")]].

(** ** Heaps *)

(** [frames h0 m Q]: run from any heap that extends [h0], the computation
    [m] leaves the cells of [h0] as they are, and a value it returns
    satisfies [Q]. *)
Definition frames {A} (h0 : heap) (m : M A) (Q : A -> Prop) : Prop :=
  forall h, h0 `prefix_of` h ->
    h0 `prefix_of` snd (m h) /\ forall a, fst (m h) = Ok a -> Q a.

(** The compiled-in host defaults are in place. *)
Definition globals_ok (h : heap) : Prop :=
  h !! macos_expansions_ref = Some _macos_expansions
  /\ h !! rhel8_expansions_ref = Some [].

(** [m] succeeds with one and the same value from every heap in which the
    host defaults are in place, and leaves them in place. *)
Definition heap_independent {A} (m : M A) : Prop :=
  exists a, forall h, globals_ok h ->
    exists h', m h = (Ok a, h') /\ globals_ok h'.

(** ** The certificate-validation matrix *)

Definition ocsp_expansions : pydict :=
  [("AUTH", "noauth"); ("SSL", "ssl"); ("TOPOLOGY", "server")].

Definition display_name_arity_error : exn :=
  TypeError "get_display_name() takes 2 positional arguments but more were given".

(** The pairs the first loop of [create_ocsp_variants] iterates over. *)
Definition ocsp_linux_enumeration : list (list item) :=
  zip_cycle [map IStr (filter (fun v => negb (String.eqb v "4.0")) ALL_VERSIONS);
             map IStr ALL_PYTHONS] INone.

(** ** Characters of a string *)

(** Every character of [s] satisfies [p]. *)
Fixpoint all_chars (p : ascii -> bool) (s : string) : bool :=
  match s with
  | EmptyString => true
  | String c rest => p c && all_chars p rest
  end.

Definition is_upper (c : ascii) : bool :=
  let n := nat_of_ascii c in (65 <=? n) && (n <=? 90).

(** The character is one of the 128 ASCII characters.  [Str.lower] and
    [Str.splitlines] are the Python methods on text of such characters;
    beyond them Python lowers more letters and knows more line boundaries
    (U+0085, U+2028, U+2029). *)
Definition is_ascii (c : ascii) : bool := nat_of_ascii c <? 128.

Definition not_char (c0 c : ascii) : bool := negb (Ascii.eqb c c0).

(** The name [create_variant] derives from a display name. *)
Definition variant_name (display : string) : string :=
  Str.lower (Str.replace " " "-" display).

(** What [get_display_name] returns, as a function of the registry entry
    and the tokens of the bindings. *)
Definition display_name_outcome (base host : string) (kwargs : pydict)
  : result string :=
  match assoc host HOSTS with
  | None => Err (KeyError host)
  | Some profile =>
      match axis_tokens kwargs with
      | Ok tokens =>
          Ok (append_tokens (base +:+ " " +:+ host_display_name profile) tokens)
      | Err e => Err e
      end
  end.

(** ** Lines of text *)

Definition LFs : string := String Str.LF "".

(** A character that can stand inside a line: ASCII, and no line boundary. *)
Definition line_char (c : ascii) : bool :=
  is_ascii c && negb (Str.is_linebreak c).

(** A line: not empty, of ASCII characters, without a line boundary inside. *)
Definition is_line (l : string) : Prop :=
  l <> ""%string /\ all_chars line_char l = true.

Definition indent2 (l : string) : string := "  " +:+ l.

(** ** Reading a generated variant *)

(** The variant runs on the given host and tests the given interpreter. *)
Definition tests_python_on (host python : string) (v : BuildVariant) : Prop :=
  match assoc host HOSTS, get_python_binary python host with
  | Some profile, Ok binary =>
      run_on v = [host_run_on profile]
      /\ expansion v "PYTHON_BINARY" = Some binary
  | _, _ => False
  end.

(** The variant is one of the given host: its display name says so. *)
Definition on_host (label : string) (v : BuildVariant) : Prop :=
  String.prefix ("Test " +:+ label +:+ " py") (display_name v) = true.

#[global] Instance tests_python_on_dec host python v :
  Decision (tests_python_on host python v).
Proof.
  unfold tests_python_on.
  destruct (assoc host HOSTS); [|apply _].
  destruct (get_python_binary python host); apply _.
Defined.

#[global] Instance on_host_dec label v : Decision (on_host label v).
Proof. unfold on_host. apply _. Defined.

(** * Properties *)

(** ** Evaluation on examples *)

Example get_display_name_ex :
  get_display_name "Test" "rhel8" [("python", "3.9"); ("auth", "auth"); ("ssl", "ssl")]
  = Ok "Test RHEL8 py3.9 Auth SSL"%string.
Proof. reflexivity. Qed.

Example get_python_binary_ex :
  get_python_binary "3.10" "win32" = Ok "C:/python/32/Python310/python.exe"%string.
Proof. reflexivity. Qed.

Example zip_cycle_ex1 :
  zip_cycle [[1; 2; 3]; [10; 20]] 0 = [[1; 10]; [2; 20]; [3; 10]].
Proof. reflexivity. Qed.

Example zip_cycle_ex2 :
  zip_cycle [[1; 2; 3]; []; [7]] 99 = [[1; 99; 7]; [2; 99; 7]; [3; 99; 7]].
Proof. reflexivity. Qed.

Example zip_cycle_ex3 :
  zip_cycle [[1; 2]; [10; 20; 30; 40; 50]] 0
  = [[1; 10]; [2; 20]; [1; 30]; [2; 40]; [1; 50]].
Proof. reflexivity. Qed.


(** ** Strings and dictionaries *)

Lemma eqb_false_iff (a b : string) : String.eqb a b = false <-> a <> b.
Proof.
  destruct (String.eqb_spec a b) as [->|Hne]; split; intros; congruence.
Qed.

(** ** Interpreter paths *)

(** C7: [get_python_binary("3.9", "rhel8")] is [/opt/python/3.9/bin/python3]
    and [get_python_binary("3.10", "win32")] is
    [C:/python/32/Python310/python.exe]; on the Windows hosts the dots of the
    version are removed, and the base is chosen by the host. *)
Theorem get_python_binary_examples :
  get_python_binary "3.9" "rhel8" = Ok "/opt/python/3.9/bin/python3"%string
  /\ get_python_binary "3.10" "win32" = Ok "C:/python/32/Python310/python.exe"%string
  /\ (forall python,
        get_python_binary python "win32"
        = Ok ("C:/python/32/Python" +:+ Str.replace "." "" python +:+ "/python.exe")
        /\ get_python_binary python "win64"
        = Ok ("C:/python/Python" +:+ Str.replace "." "" python +:+ "/python.exe")).
Proof. repeat split. Qed.

(** ** Display names *)

Lemma display_loop_tokens (kwargs : pydict) :
  forall acc tokens,
    axis_tokens kwargs = Ok tokens ->
    display_loop acc kwargs = Ok (append_tokens acc tokens).
Proof.
  induction kwargs as [|[key value] rest IH]; intros acc tokens Htok; simpl in *.
  - by inversion Htok.
  - destruct (axis_token key value) as [t|e]; simpl in *; [|discriminate].
    destruct (axis_tokens rest) as [ts|e]; simpl in *; [|discriminate].
    inversion Htok; subst. simpl. by apply IH.
Qed.

Lemma display_loop_app_err (pre post : pydict) :
  forall acc, (forall acc', is_err (display_loop acc' post)) ->
  is_err (display_loop acc (pre ++ post)).
Proof.
  induction pre as [|[key value] rest IH]; intros acc Hpost; simpl.
  - apply Hpost.
  - destruct (axis_token key value); simpl; [by apply IH | exact I].
Qed.

Lemma axis_token_unrecognized (key value : string) :
  key <> "version"%string -> key <> "python"%string ->
  has_key (Str.lower key) DISPLAY_LOOKUP = false ->
  axis_token key value = Err (ValueError ("Missing display handling for " +:+ key)).
Proof.
  intros Hv Hp Hk. unfold axis_token.
  apply eqb_false_iff in Hv, Hp. by rewrite Hv, Hp, Hk.
Qed.

(** C8: the display name is ["<base> <host display label>"] followed by one
    token per binding, in the order of the bindings; and
    [get_display_name("Test", "rhel8", python="3.9", auth="auth", ssl="ssl")]
    is ["Test RHEL8 py3.9 Auth SSL"]. *)
Theorem get_display_name_format :
  (forall base host kwargs profile tokens,
      subscript HOSTS host = Ok profile ->
      axis_tokens kwargs = Ok tokens ->
      get_display_name base host kwargs
      = Ok (append_tokens (base +:+ " " +:+ host_display_name profile) tokens))
  /\ axis_tokens [("python", "3.9"); ("auth", "auth"); ("ssl", "ssl")]%string
     = Ok ["py3.9"; "Auth"; "SSL"]%string
  /\ get_display_name "Test" "rhel8"
       [("python", "3.9"); ("auth", "auth"); ("ssl", "ssl")]
     = Ok "Test RHEL8 py3.9 Auth SSL"%string.
Proof.
  split; [|split; reflexivity].
  intros base host kwargs profile tokens Hhost Htok.
  unfold get_display_name. rewrite Hhost. simpl.
  by apply display_loop_tokens.
Qed.

(** C9: a binding whose key is neither ["version"] nor ["python"] and whose
    lowercased key is not in [DISPLAY_LOOKUP] makes [get_display_name] fail;
    when the host is registered and the bindings before it format, the
    failure is the [ValueError] of the guard. *)
Theorem get_display_name_unrecognized_axis
    (base host : string) (pre post : pydict) (key value : string) :
  key <> "version"%string -> key <> "python"%string ->
  has_key (Str.lower key) DISPLAY_LOOKUP = false ->
  is_err (get_display_name base host (pre ++ (key, value) :: post))
  /\ (forall profile tokens,
        subscript HOSTS host = Ok profile ->
        axis_tokens pre = Ok tokens ->
        get_display_name base host (pre ++ (key, value) :: post)
        = Err (ValueError ("Missing display handling for " +:+ key))).
Proof.
  intros Hv Hp Hk.
  pose proof (axis_token_unrecognized key value Hv Hp Hk) as Htok.
  split.
  - unfold get_display_name. destruct (subscript HOSTS host); simpl; [|exact I].
    apply display_loop_app_err. intros acc'. simpl. by rewrite Htok.
  - intros profile tokens Hhost Hpre. unfold get_display_name.
    rewrite Hhost. simpl. clear Hhost.
    generalize (base +:+ " " +:+ host_display_name profile).
    revert tokens Hpre.
    induction pre as [|[k v] rest IH]; intros tokens Hpre acc; simpl in *.
    + by rewrite Htok.
    + destruct (axis_token k v); simpl in *; [|discriminate].
      destruct (axis_tokens rest) eqn:Hrest; simpl in *; [|discriminate].
      by eapply IH.
Qed.

Lemma get_display_name_unrecognized_axis_witness :
  is_err (get_display_name "Test" "rhel8"
            ([("python", "3.9")] ++ ("topology", "server") :: [("ssl", "ssl")]))
  /\ get_display_name "Test" "rhel8"
       ([("python", "3.9")] ++ ("topology", "server") :: [("ssl", "ssl")])
     = Err (ValueError "Missing display handling for topology").
Proof.
  destruct (get_display_name_unrecognized_axis "Test" "rhel8"
              [("python", "3.9")] [("ssl", "ssl")]
              "topology" "server") as [H1 H2];
    [discriminate | discriminate | reflexivity |].
  split; [exact H1|].
  exact (H2 _ ["py3.9"%string] eq_refl eq_refl).
Defined.

(** ** The cyclic zip *)

Section CycleFacts.
Context {A : Type}.
Implicit Types (xs : list A) (it : @cycle_iter A) (its : list (list A)).

Lemma succ_mod_wrap (p n : nat) : S p = n -> S p mod n = 0.
Proof. intros <-. apply Nat.Div0.mod_same. Qed.

Lemma succ_mod_step (k n : nat) : S (k mod n) mod n = S k mod n.
Proof.
  replace (S (k mod n)) with (k mod n + 1) by lia.
  replace (S k) with (k + 1) by lia.
  apply Nat.Div0.add_mod_idemp_l.
Qed.

Lemma succ_mod_small (p n : nat) : S p < n -> S p mod n = S p.
Proof. apply Nat.mod_small. Qed.

Lemma at_position_restart xs x rest :
  xs = x :: rest -> at_position xs (1 mod length xs) (Replay rest xs).
Proof.
  intros ->. destruct rest as [|y rest].
  - simpl. by apply at_rewrap.
  - rewrite Nat.mod_small by (simpl; lia).
    apply (at_replay (x :: y :: rest) 1). simpl; lia.
Qed.

Lemma at_position_next xs p it :
  at_position xs p it ->
  exists x it',
    xs !! p = Some x /\ cycle_next it = (Some x, it')
    /\ at_position xs (S p mod length xs) it'.
Proof.
  intros [q Hq|Hne|q Hq|Hne].
  - destruct (lookup_lt_is_Some_2 xs q Hq) as [x Hx].
    exists x, (FirstPass (drop (S q) xs) (take (S q) xs)).
    split; [done|]. split.
    + rewrite (drop_S _ _ _ Hx). simpl. by rewrite (take_S_r _ _ _ Hx).
    + destruct (decide (S q = length xs)) as [Heq|Hlt].
      * rewrite succ_mod_wrap by done. rewrite Heq.
        rewrite drop_all, firstn_all. apply at_wrap.
        intros ->. simpl in Hq. lia.
      * rewrite succ_mod_small by lia. apply at_first. lia.
  - destruct xs as [|x rest]; [done|].
    exists x, (Replay rest (x :: rest)).
    split; [done|]. split; [done|]. by eapply at_position_restart.
  - destruct (lookup_lt_is_Some_2 xs q Hq) as [x Hx].
    exists x, (Replay (drop (S q) xs) xs).
    split; [done|]. split.
    + by rewrite (drop_S _ _ _ Hx).
    + destruct (decide (S q = length xs)) as [Heq|Hlt].
      * rewrite succ_mod_wrap by done. rewrite Heq, drop_all.
        apply at_rewrap. intros ->. simpl in Hq. lia.
      * rewrite succ_mod_small by lia. apply at_replay. lia.
  - destruct xs as [|x rest]; [done|].
    exists x, (Replay rest (x :: rest)).
    split; [done|]. split; [done|]. by eapply at_position_restart.
Qed.

Lemma advance_S k it : advance (S k) it = snd (cycle_next (advance k it)).
Proof. reflexivity. Qed.

Lemma advance_position xs k :
  xs <> [] -> at_position xs (k mod length xs) (advance k (cycle xs)).
Proof.
  intros Hne.
  assert (0 < length xs) as Hlen by (destruct xs; [done | simpl; lia]).
  induction k as [|k IH].
  - rewrite Nat.mod_small by done. by apply (at_first xs 0).
  - destruct (at_position_next _ _ _ IH) as (x & it' & _ & Hnext & Hpos).
    rewrite advance_S, Hnext. cbn [snd].
    by rewrite <- succ_mod_step.
Qed.

Lemma advance_empty k : advance k (cycle (@nil A)) = FirstPass [] [].
Proof. induction k as [|k IH]; [done|]. by rewrite advance_S, IH. Qed.

Lemma next_advance xs d k :
  next (advance k (cycle xs)) d = (slot xs d k, advance (S k) (cycle xs)).
Proof.
  rewrite advance_S. destruct (decide (xs = [])) as [->|Hne].
  - by rewrite advance_empty.
  - destruct (at_position_next _ _ _ (advance_position xs k Hne))
      as (x & it' & Hx & Hnext & _).
    unfold next. rewrite Hnext. simpl. unfold slot.
    destruct xs; [done|]. by rewrite Hx.
Qed.

Lemma next_all_advance its d k :
  next_all (map (fun xs => advance k (cycle xs)) its) d
  = (map (fun xs => slot xs d k) its,
     map (fun xs => advance (S k) (cycle xs)) its).
Proof.
  induction its as [|xs its IH]; [done|].
  simpl. by rewrite next_advance, IH.
Qed.

Lemma zip_cycle_loop_rows (rows : list (list (option A))) its d :
  forall k,
    zip_cycle_loop rows (map (fun xs => advance k (cycle xs)) its) d
    = map (fun i => map (fun xs => slot xs d i) its) (seq k (length rows)).
Proof.
  induction rows as [|r rows IH]; intros k; [done|].
  simpl. rewrite next_all_advance. by rewrite IH.
Qed.

(** The cyclic zip in closed form. *)
Lemma zip_cycle_closed its d :
  zip_cycle its d
  = map (fun i => map (fun xs => slot xs d i) its) (seq 0 (max_length its)).
Proof.
  unfold zip_cycle.
  change (map cycle its) with (map (fun xs => advance 0 (cycle xs)) its).
  rewrite (zip_cycle_loop_rows (zip_longest its) its d 0).
  unfold zip_longest. by rewrite length_map, length_seq.
Qed.

Lemma max_length_nonempty its :
  max_length its = max_length (filter (fun xs => 0 < length xs) its).
Proof.
  induction its as [|xs its IH]; [done|].
  rewrite filter_cons. destruct (decide (0 < length xs)) as [Hpos|Hzero].
  - unfold max_length in *. simpl. by rewrite IH.
  - unfold max_length in *. simpl. rewrite <- IH. lia.
Qed.

(** C3: the cyclic zip has as many tuples as the longest input has
    elements (which is the length of the longest non-empty input); every
    tuple has one slot per input; the slot of a non-empty input holds its
    element at the tuple's index modulo its length, and the slot of an
    empty input holds the default. *)
Theorem zip_cycle_spec its (d : A) :
  length (zip_cycle its d) = max_length its
  /\ max_length its = max_length (filter (fun xs => 0 < length xs) its)
  /\ forall i, i < max_length its ->
       exists row,
         zip_cycle its d !! i = Some row
         /\ length row = length its
         /\ forall j xs, its !! j = Some xs ->
              (xs <> [] -> row !! j = xs !! (i mod length xs))
              /\ (xs = [] -> row !! j = Some d).
Proof.
  rewrite zip_cycle_closed. split; [|split].
  - by rewrite length_map, length_seq.
  - apply max_length_nonempty.
  - intros i Hi. exists (map (fun xs => slot xs d i) its).
    split; [|split].
    + rewrite list_lookup_fmap, lookup_seq_lt by done. done.
    + by rewrite length_map.
    + intros j xs Hj. rewrite list_lookup_fmap, Hj. simpl. split.
      * intros Hne. unfold slot. destruct xs as [|x xs']; [done|].
        assert (i mod length (x :: xs') < length (x :: xs')) as Hlt
          by (apply Nat.mod_upper_bound; simpl; lia).
        destruct (lookup_lt_is_Some_2 _ _ Hlt) as [y Hy].
        by rewrite Hy.
      * by intros ->.
Qed.
End CycleFacts.

Lemma zip_cycle_spec_witness :
  exists row,
    zip_cycle [[1; 2; 3]; []; [7; 8]] 0 !! 2 = Some row
    /\ length row = 3
    /\ row !! 0 = Some 3 /\ row !! 1 = Some 0 /\ row !! 2 = Some 7.
Proof.
  destruct (zip_cycle_spec [[1; 2; 3]; []; [7; 8]] 0) as (_ & _ & H).
  destruct (H 2 ltac:(vm_compute; lia)) as (row & Hrow & Hlen & Hslots).
  exists row. split; [exact Hrow|]. split; [exact Hlen|].
  split; [|split].
  - apply (Hslots 0 [1; 2; 3] eq_refl). discriminate.
  - apply (Hslots 1 [] eq_refl). reflexivity.
  - apply (Hslots 2 [7; 8] eq_refl). discriminate.
Defined.

(** ** Running monadic code *)

Section Runs.
Context {A B : Type}.
Implicit Types (k : A -> M B) (h : heap).

Lemma run_bind (m : M A) k h a h' :
  m h = (Ok a, h') -> bind m k h = k a h'.
Proof. unfold bind. by intros ->. Qed.

Lemma run_ret (a : A) k h : bind (ret a) k h = k a h.
Proof. reflexivity. Qed.

Lemma run_lift (r : result A) k h a : r = Ok a -> bind (lift r) k h = k a h.
Proof. by intros ->. Qed.

End Runs.

Lemma run_new_dict {B} (d : pydict) (k : nat -> M B) (h : heap) :
  bind (new_dict d) k h = k (length h) (h ++ [d]).
Proof. reflexivity. Qed.

Lemma run_read_dict {B} (a : nat) (k : pydict -> M B) (h : heap) (d : pydict) :
  h !! a = Some d -> bind (read_dict a) k h = k d h.
Proof. intros Ha. unfold bind, read_dict. by rewrite Ha. Qed.

Lemma run_modify_dict {B} (a : nat) f (k : unit -> M B) (h : heap) (d : pydict) :
  h !! a = Some d -> bind (modify_dict a f) k h = k tt (<[a := f d]> h).
Proof. intros Ha. unfold bind, modify_dict. by rewrite Ha. Qed.

Lemma bind_assoc {A B C} (m : M A) (f : A -> M B) (g : B -> M C) (h : heap) :
  bind (bind m f) g h = bind m (fun a => bind (f a) g) h.
Proof. unfold bind. destruct (m h) as [[a|e] h']; reflexivity. Qed.

(** ** The heap: the last cell *)

Lemma lookup_last_cell (h : heap) (d : pydict) : (h ++ [d]) !! length h = Some d.
Proof. by apply list_lookup_middle. Qed.

Lemma insert_last_cell (h : heap) (d d' : pydict) :
  <[length h := d']> (h ++ [d]) = h ++ [d'].
Proof.
  rewrite insert_app_r_alt by lia. by rewrite Nat.sub_diag.
Qed.

Lemma lookup_older_cell (h : heap) (d d' : pydict) (a : nat) :
  h !! a = Some d -> (h ++ [d']) !! a = Some d.
Proof. apply lookup_app_l_Some. Qed.

(** ** The variant factory in closed form *)

Lemma create_variant_outcome task_names display python version host exps kwargs
    (h : heap) (caller defaults : pydict) (profile : Host) (binary : string) :
  caller_holds h exps caller ->
  subscript HOSTS (host_or_default host) = Ok profile ->
  h !! host_expansions profile = Some defaults ->
  (forall p, truthy python = Some p ->
             get_python_binary p (host_or_default host) = Ok binary) ->
  create_variant task_names display python version host exps kwargs h
  = (match repeated_keyword kwargs with
     | Some keyword =>
         Err (TypeError
                ("BuildVariant() got multiple values for keyword argument '"
                 +:+ keyword +:+ "'"))
     | None =>
         Ok {| name := Str.lower (Str.replace " " "-" display);
               display_name := display;
               tasks := map mkEvgTaskRef task_names;
               expansions :=
                 or_none (merged_expansions python version binary caller defaults);
               run_on := [host_run_on profile];
               extra := kwargs |}
     end,
     h ++ [[]; []; merged_expansions python version binary caller defaults]).
Proof.
  intros Hcaller Hhost Hdefaults Hbinary.
  unfold create_variant, merged_expansions.
  fold (host_or_default host).
  rewrite run_new_dict, run_new_dict.
  set (H := (h ++ [[]]) ++ [[]]).
  assert (forall a d, h !! a = Some d -> H !! a = Some d) as Hold.
  { intros a d Ha. unfold H. by do 2 apply lookup_older_cell. }
  assert (H !! match exps with Some a => a | None => length h end = Some caller)
    as Hsupplied.
  { destruct exps as [a|]; simpl in Hcaller.
    - by apply Hold.
    - subst caller. unfold H. apply lookup_older_cell, lookup_last_cell. }
  rewrite (run_read_dict _ _ _ _ Hsupplied).
  rewrite run_new_dict.
  rewrite (run_lift _ _ _ _ Hhost).
  assert (h ++ [[]; []; Dict.update
                          match truthy version with
                          | Some v =>
                              Dict.set "VERSION" v
                                match truthy python with
                                | Some _ => Dict.set "PYTHON_BINARY" binary caller
                                | None => caller
                                end
                          | None =>
                              match truthy python with
                              | Some _ => Dict.set "PYTHON_BINARY" binary caller
                              | None => caller
                              end
                          end defaults]
          = H ++ [Dict.update
                    match truthy version with
                    | Some v =>
                        Dict.set "VERSION" v
                          match truthy python with
                          | Some _ => Dict.set "PYTHON_BINARY" binary caller
                          | None => caller
                          end
                    | None =>
                        match truthy python with
                        | Some _ => Dict.set "PYTHON_BINARY" binary caller
                        | None => caller
                        end
                    end defaults]) as ->.
  { unfold H. by rewrite <- !app_assoc. }
  destruct (truthy python) as [p|] eqn:Hp.
  - rewrite bind_assoc, (run_lift _ _ _ _ (Hbinary p eq_refl)).
    rewrite (run_modify_dict _ _ _ _ _ (lookup_last_cell H caller)).
    rewrite insert_last_cell.
    destruct (truthy version) as [v|] eqn:Hv.
    + rewrite (run_modify_dict _ _ _ _ _ (lookup_last_cell H _)).
      rewrite insert_last_cell.
      rewrite (run_read_dict _ _ _ _ (lookup_older_cell _ _ _ _ (Hold _ _ Hdefaults))).
      rewrite (run_modify_dict _ _ _ _ _ (lookup_last_cell H _)).
      rewrite insert_last_cell.
      rewrite (run_read_dict _ _ _ _ (lookup_last_cell H _)).
      by destruct (repeated_keyword kwargs).
    + rewrite run_ret.
      rewrite (run_read_dict _ _ _ _ (lookup_older_cell _ _ _ _ (Hold _ _ Hdefaults))).
      rewrite (run_modify_dict _ _ _ _ _ (lookup_last_cell H _)).
      rewrite insert_last_cell.
      rewrite (run_read_dict _ _ _ _ (lookup_last_cell H _)).
      by destruct (repeated_keyword kwargs).
  - rewrite run_ret.
    destruct (truthy version) as [v|] eqn:Hv.
    + rewrite (run_modify_dict _ _ _ _ _ (lookup_last_cell H _)).
      rewrite insert_last_cell.
      rewrite (run_read_dict _ _ _ _ (lookup_older_cell _ _ _ _ (Hold _ _ Hdefaults))).
      rewrite (run_modify_dict _ _ _ _ _ (lookup_last_cell H _)).
      rewrite insert_last_cell.
      rewrite (run_read_dict _ _ _ _ (lookup_last_cell H _)).
      by destruct (repeated_keyword kwargs).
    + rewrite run_ret.
      rewrite (run_read_dict _ _ _ _ (lookup_older_cell _ _ _ _ (Hold _ _ Hdefaults))).
      rewrite (run_modify_dict _ _ _ _ _ (lookup_last_cell H _)).
      rewrite insert_last_cell.
      rewrite (run_read_dict _ _ _ _ (lookup_last_cell H _)).
      by destruct (repeated_keyword kwargs).
Qed.

Lemma create_variant_run task_names display python version host exps kwargs
    (h : heap) (caller defaults : pydict) (profile : Host) (binary : string) :
  caller_holds h exps caller ->
  subscript HOSTS (host_or_default host) = Ok profile ->
  h !! host_expansions profile = Some defaults ->
  (forall p, truthy python = Some p ->
             get_python_binary p (host_or_default host) = Ok binary) ->
  repeated_keyword kwargs = None ->
  create_variant task_names display python version host exps kwargs h
  = (Ok {| name := Str.lower (Str.replace " " "-" display);
           display_name := display;
           tasks := map mkEvgTaskRef task_names;
           expansions :=
             or_none (merged_expansions python version binary caller defaults);
           run_on := [host_run_on profile];
           extra := kwargs |},
     h ++ [[]; []; merged_expansions python version binary caller defaults]).
Proof.
  intros Hcaller Hhost Hdefaults Hbinary Hkwargs.
  rewrite (create_variant_outcome _ _ _ _ _ _ _ _ _ _ _ _
             Hcaller Hhost Hdefaults Hbinary).
  by rewrite Hkwargs.
Qed.

(** ** Framing: code that only allocates, and writes only to what it allocated *)

Lemma prefix_insert_beyond (h h' : heap) (a : nat) (d : pydict) :
  h `prefix_of` h' -> length h <= a -> h `prefix_of` <[a := d]> h'.
Proof.
  intros [cells ->] Ha. exists (<[a - length h := d]> cells).
  by apply insert_app_r_alt.
Qed.

Section FrameRules.
Context {A B : Type} (h0 : heap).

Lemma frames_ret (a : A) (Q : A -> Prop) : Q a -> frames h0 (ret a) Q.
Proof. intros Ha h Hh. split; [done|]. intros a' [= <-]. done. Qed.

Lemma frames_raise (e : exn) (Q : A -> Prop) : frames h0 (raise e) Q.
Proof. intros h Hh. split; [done|]. intros a' [=]. Qed.

Lemma frames_lift (r : result A) : frames h0 (lift r) (fun a => r = Ok a).
Proof. intros h Hh. split; [done|]. by intros a' Ha. Qed.

Lemma frames_bind (m : M A) (k : A -> M B) (Q : A -> Prop) (R : B -> Prop) :
  frames h0 m Q -> (forall a, Q a -> frames h0 (k a) R) ->
  frames h0 (bind m k) R.
Proof.
  intros Hm Hk h Hh. destruct (Hm h Hh) as [Hpre Hval].
  unfold bind. destruct (m h) as [[a|e] h'] eqn:Hrun; simpl in *.
  - apply (Hk a (Hval a eq_refl) h' Hpre).
  - split; [done|]. intros b [=].
Qed.
End FrameRules.

Lemma frames_new_dict (h0 : heap) (d : pydict) :
  frames h0 (new_dict d) (fun a => length h0 <= a).
Proof.
  intros h Hh. split; simpl.
  - by apply prefix_app_r.
  - intros a [= <-]. by apply prefix_length.
Qed.

Lemma frames_read_dict (h0 : heap) (a : nat) :
  frames h0 (read_dict a) (fun _ => True).
Proof.
  intros h Hh. unfold read_dict. by destruct (h !! a).
Qed.

Lemma frames_modify_dict (h0 : heap) (a : nat) (f : pydict -> pydict) :
  length h0 <= a -> frames h0 (modify_dict a f) (fun _ => True).
Proof.
  intros Ha h Hh. unfold modify_dict. destruct (h !! a); simpl; [|done].
  split; [|done]. by apply prefix_insert_beyond.
Qed.

Lemma frames_for_in {A S} (h0 : heap) (xs : list A) (body : A -> S -> M S) :
  (forall x s, frames h0 (body x s) (fun _ => True)) ->
  forall s, frames h0 (for_in xs body s) (fun _ => True).
Proof.
  intros Hbody. induction xs as [|x xs IH]; intros s; simpl.
  - by apply frames_ret.
  - eapply frames_bind; [apply Hbody|]. intros s' _. apply IH.
Qed.

Ltac frame_step :=
  first
    [ eapply frames_bind; [apply frames_new_dict | intros ? ?; cbv beta in *]
    | eapply frames_bind; [apply frames_read_dict | intros ? _]
    | eapply frames_bind; [apply frames_lift | intros ? ?; cbv beta in *]
    | eapply frames_bind; [apply frames_modify_dict; lia | intros ? _]
    | apply frames_ret; exact I ].

Lemma create_variant_frames (h0 : heap) task_names display python version host
    exps kwargs :
  frames h0 (create_variant task_names display python version host exps kwargs)
    (fun _ => True).
Proof.
  unfold create_variant. do 5 frame_step.
  eapply frames_bind with (Q := fun _ => True).
  { destruct (truthy python); [|by apply frames_ret].
    frame_step. apply frames_modify_dict. lia. }
  intros _ _.
  eapply frames_bind with (Q := fun _ => True).
  { destruct (truthy version); [|by apply frames_ret].
    apply frames_modify_dict. lia. }
  intros _ _. do 3 frame_step.
  destruct (repeated_keyword kwargs); [apply frames_raise | by apply frames_ret].
Qed.

Ltac frame_variant :=
  do 3 frame_step;
  eapply frames_bind; [apply create_variant_frames | intros ? _];
  apply frames_ret; exact I.

(** The strategies, too, leave every dict object that exists before the
    call as it is: there is no shared mutable state. *)
Lemma create_server_variants_frames (h0 : heap) :
  frames h0 create_server_variants (fun _ => True).
Proof.
  unfold create_server_variants. cbv zeta.
  eapply frames_bind with (Q := fun _ => True).
  { apply frames_for_in. intros [python [auth ssl]] s. frame_variant. }
  intros variants1 _.
  eapply frames_bind with (Q := fun _ => True).
  { apply frames_for_in. intros t s.
    repeat case_match; try (unfold unpack_error; apply frames_raise);
      frame_variant. }
  intros variants2 _.
  eapply frames_bind with (Q := fun _ => True).
  { apply frames_for_in. intros host s.
    apply frames_for_in. intros [t sync] s'.
    repeat case_match; try (unfold unpack_error; apply frames_raise);
      frame_variant. }
  intros variants3 _. by apply frames_ret.
Qed.

Lemma create_ocsp_variants_frames (h0 : heap) :
  frames h0 create_ocsp_variants (fun _ => True).
Proof.
  unfold create_ocsp_variants. cbv zeta. frame_step.
  eapply frames_bind with (Q := fun _ => True).
  { apply frames_for_in. intros t s.
    repeat case_match; unfold unpack_error; apply frames_raise. }
  intros variants1 _.
  eapply frames_bind with (Q := fun _ => True).
  { apply frames_for_in. intros [host version] s. apply frames_raise. }
  intros variants2 _. by apply frames_ret.
Qed.

(** C10: [create_variant] never changes a dict object that exists when it is
    called, whatever its arguments and however it ends: in particular the
    mapping the caller passed holds the same pairs afterwards. *)
Theorem create_variant_keeps_caller_dict task_names display python version host
    exps kwargs (h : heap) (a : nat) (d : pydict) :
  h !! a = Some d ->
  snd (create_variant task_names display python version host exps kwargs h) !! a
  = Some d.
Proof.
  intros Ha.
  destruct (create_variant_frames h task_names display python version host
              exps kwargs h) as [Hpre _]; [done|].
  by eapply prefix_lookup_Some.
Qed.

Lemma create_variant_keeps_caller_dict_witness :
  snd (create_variant [".standalone"] "Test macOS py3.9"
         (Some "3.9") (Some "8.0") (Some "macos") (Some 2) []
         (init_heap ++ [[("SKIP_CSOT_TESTS", "false"); ("AUTH", "auth")]])) !! 2
  = Some [("SKIP_CSOT_TESTS", "false"); ("AUTH", "auth")].
Proof.
  apply (create_variant_keeps_caller_dict [".standalone"] "Test macOS py3.9"
           (Some "3.9") (Some "8.0") (Some "macos") (Some 2) []).
  reflexivity.
Defined.

(** ** Dictionary lookups after [set] and [update] *)

Lemma get_set (k k' v : string) (d : pydict) :
  Dict.get k (Dict.set k' v d)
  = if String.eqb k k' then Some v else Dict.get k d.
Proof.
  induction d as [|[k0 v0] d IH]; simpl.
  - by destruct (String.eqb k k').
  - destruct (String.eqb_spec k' k0) as [->|Hne]; simpl.
    + by destruct (String.eqb k k0).
    + destruct (String.eqb_spec k k0) as [->|Hne'].
      * apply eqb_false_iff in Hne.
        rewrite String.eqb_sym in Hne. by rewrite Hne.
      * exact IH.
Qed.

Lemma get_absent (k : string) (d : pydict) :
  k ∉ map fst d -> Dict.get k d = None.
Proof.
  induction d as [|[k0 v0] d IH]; simpl; [done|].
  intros Hk. apply not_elem_of_cons in Hk as [Hne Hk].
  apply eqb_false_iff in Hne. rewrite Hne. by apply IH.
Qed.

(** [update] gives every key of [other] the value it has in [other], and
    leaves the other keys alone. *)
Lemma get_update (k : string) (other : pydict) :
  NoDup (map fst other) ->
  forall d,
    Dict.get k (Dict.update d other)
    = match Dict.get k other with
      | Some v => Some v
      | None => Dict.get k d
      end.
Proof.
  unfold Dict.update.
  induction other as [|[k0 v0] other IH]; intros Hnodup d; simpl; [done|].
  apply NoDup_cons in Hnodup as [Hk0 Hnodup]. simpl in Hk0.
  rewrite (IH Hnodup), get_set.
  destruct (String.eqb_spec k k0) as [->|Hne]; [|done].
  by rewrite (get_absent _ _ Hk0).
Qed.

Lemma get_merged_expansions python version binary caller defaults k :
  NoDup (map fst defaults) ->
  Dict.get k (merged_expansions python version binary caller defaults)
  = match Dict.get k defaults with
    | Some v => Some v
    | None => injected_lookup python version binary caller k
    end.
Proof.
  intros Hnodup. unfold merged_expansions, injected_lookup.
  rewrite (get_update _ _ Hnodup).
  destruct (Dict.get k defaults); [done|].
  destruct (truthy version), (truthy python); by rewrite ?get_set.
Qed.

(** ** Merging of the expansions *)

Lemma expansion_or_none (d : pydict) (k : string) :
  match or_none d with Some d' => Dict.get k d' | None => None end = Dict.get k d.
Proof. by destruct d. Qed.

(** C1, as the code has it: when the call builds a variant (the caller's
    dict and the host's defaults exist, the host is registered, and the other
    keyword arguments name no field that [create_variant] sets itself), the
    resulting expansions are the caller's mapping, with the interpreter path
    and the server version written into it when given, merged with the
    host's defaults; a key of the host's defaults holds the host's value in
    the result, also when the caller supplied that key, and every other key
    holds what the caller (or the injection) gave it. *)
Theorem create_variant_merges_expansions task_names display python version host
    exps kwargs (h : heap) (caller defaults : pydict) (profile : Host)
    (binary : string) :
  caller_holds h exps caller ->
  subscript HOSTS (host_or_default host) = Ok profile ->
  h !! host_expansions profile = Some defaults ->
  NoDup (map fst defaults) ->
  (forall p, truthy python = Some p ->
             get_python_binary p (host_or_default host) = Ok binary) ->
  repeated_keyword kwargs = None ->
  exists v,
    fst (create_variant task_names display python version host exps kwargs h)
    = Ok v
    /\ (forall k dv, Dict.get k defaults = Some dv -> expansion v k = Some dv)
    /\ (forall k cv dv,
          Dict.get k caller = Some cv -> Dict.get k defaults = Some dv ->
          expansion v k = Some dv)
    /\ (forall k, Dict.get k defaults = None ->
          expansion v k = injected_lookup python version binary caller k).
Proof.
  intros Hcaller Hhost Hdefaults Hnodup Hbinary Hkwargs.
  rewrite (create_variant_run _ _ _ _ _ _ _ _ _ _ _ _
             Hcaller Hhost Hdefaults Hbinary Hkwargs).
  eexists. split; [reflexivity|].
  unfold expansion. cbn [expansions].
  assert (forall k,
            match or_none (merged_expansions python version binary caller defaults)
            with Some d => Dict.get k d | None => None end
            = match Dict.get k defaults with
              | Some v => Some v
              | None => injected_lookup python version binary caller k
              end) as Hget.
  { intros k. rewrite expansion_or_none. by apply get_merged_expansions. }
  split; [|split].
  - intros k dv Hk. by rewrite Hget, Hk.
  - intros k cv dv _ Hk. by rewrite Hget, Hk.
  - intros k Hk. by rewrite Hget, Hk.
Qed.

Lemma create_variant_merges_expansions_witness :
  exists v,
    fst (create_variant [".standalone"] "Test macOS py3.9" (Some "3.9") None
           (Some "macos") (Some 2) [] collision_heap) = Ok v
    /\ expansion v "SKIP_CSOT_TESTS" = Some "true"%string
    /\ expansion v "AUTH" = Some "auth"%string.
Proof.
  destruct (create_variant_merges_expansions
              [".standalone"] "Test macOS py3.9" (Some "3.9") None
              (Some "macos") (Some 2) [] collision_heap
              [("AUTH", "auth"); ("SKIP_CSOT_TESTS", "false")]
              _macos_expansions
              (mkHost "macos" "macos-14" "macOS" macos_expansions_ref)
              "/Library/Frameworks/Python.Framework/Versions/3.9/bin/python3")
    as (v & Hrun & Hhost & _ & Hrest).
  - reflexivity.
  - reflexivity.
  - reflexivity.
  - apply NoDup_cons. split; [apply not_elem_of_nil | apply NoDup_nil_2].
  - intros p [= <-]. reflexivity.
  - reflexivity.
  - exists v. split; [exact Hrun|]. split.
    + apply Hhost. reflexivity.
    + apply Hrest. reflexivity.
Defined.

(** C1 as the specification words it fails: here the caller passes
    [SKIP_CSOT_TESTS = "false"] for a macOS variant, the host default is
    ["true"], and the result holds the host's value. *)
Lemma caller_value_does_not_take_precedence :
  Dict.get "SKIP_CSOT_TESTS" [("AUTH", "auth"); ("SKIP_CSOT_TESTS", "false")]
  = Some "false"%string
  /\ Dict.get "SKIP_CSOT_TESTS" _macos_expansions = Some "true"%string
  /\ exists v,
       fst (create_variant [".standalone"] "Test macOS py3.9" (Some "3.9") None
              (Some "macos") (Some 2) [] collision_heap) = Ok v
       /\ expansion v "SKIP_CSOT_TESTS" = Some "true"%string
       /\ expansion v "SKIP_CSOT_TESTS" <> Some "false"%string.
Proof.
  split; [reflexivity|]. split; [reflexivity|].
  eexists. split; [vm_compute; reflexivity|].
  split; [reflexivity | discriminate].
Qed.

(** ** Empty expansions *)

(** C6: with no expansions from the caller (none, or an empty mapping), no
    interpreter version, no server version, and the rhel8 host, whose
    profile has no overrides, the variant that is built (the other keyword
    arguments naming no field that [create_variant] sets itself) has no
    [expansions] field. *)
Theorem create_variant_omits_empty_expansions task_names display python version
    host exps kwargs (h : heap) :
  caller_holds h exps [] ->
  truthy python = None ->
  truthy version = None ->
  host_or_default host = "rhel8"%string ->
  h !! rhel8_expansions_ref = Some [] ->
  repeated_keyword kwargs = None ->
  exists v,
    fst (create_variant task_names display python version host exps kwargs h)
    = Ok v
    /\ expansions v = None.
Proof.
  intros Hcaller Hpython Hversion Hhost Hdefaults Hkwargs.
  rewrite (create_variant_run _ _ _ _ _ _ _ h [] []
             (mkHost "rhel8" "rhel87-small" "RHEL8" rhel8_expansions_ref) "").
  - eexists. split; [reflexivity|]. cbn [expansions].
    unfold merged_expansions. by rewrite Hpython, Hversion.
  - exact Hcaller.
  - by rewrite Hhost.
  - exact Hdefaults.
  - intros p Hp. congruence.
  - exact Hkwargs.
Qed.

Lemma create_variant_omits_empty_expansions_witness :
  exists v,
    fst (create_variant [".ocsp"] "OCSP test RHEL8" None None None None []
           init_heap) = Ok v
    /\ expansions v = None.
Proof.
  apply (create_variant_omits_empty_expansions [".ocsp"] "OCSP test RHEL8"
           None None None None [] init_heap);
    reflexivity.
Defined.

(** ** Independence of the heap *)

Lemma globals_ok_init : globals_ok init_heap.
Proof. by split. Qed.

Lemma globals_ok_app (h cells : heap) : globals_ok h -> globals_ok (h ++ cells).
Proof. intros [Hm Hr]. split; by apply lookup_app_l_Some. Qed.

Lemma ret_independent {A} (a : A) : heap_independent (ret a).
Proof. exists a. intros h Hh. by exists h. Qed.

Lemma bind_independent {A B} (m : M A) (k : A -> M B) :
  heap_independent m -> (forall a, heap_independent (k a)) ->
  heap_independent (bind m k).
Proof.
  intros [a Ha] Hk. destruct (Hk a) as [b Hb]. exists b.
  intros h Hh. destruct (Ha h Hh) as (h' & Hrun & Hh').
  rewrite (run_bind _ _ _ _ _ Hrun). by apply Hb.
Qed.

Lemma for_in_independent {A S} (xs : list A) (body : A -> S -> M S) :
  Forall (fun x => forall s, heap_independent (body x s)) xs ->
  forall s, heap_independent (for_in xs body s).
Proof.
  induction 1 as [|x xs Hx _ IH]; intros s; simpl.
  - apply ret_independent.
  - apply bind_independent; [apply Hx | apply IH].
Qed.

(** One iteration of a variant loop at concrete axis values: allocate the
    caller's dict, read it back, format the display name, build the
    variant. *)
Ltac run_iteration :=
  let h := fresh "h" in
  let Hm := fresh "Hm" in
  let Hr := fresh "Hr" in
  intros ?; eexists; intros h [Hm Hr]; eexists;
  cbv beta iota zeta;
  split;
  [ rewrite run_new_dict;
    rewrite (run_read_dict _ _ _ _ (lookup_last_cell _ _));
    erewrite run_lift by (vm_compute; reflexivity);
    erewrite (run_bind (create_variant _ _ _ _ _ _ _)) by
      (eapply create_variant_run;
       [ apply lookup_last_cell
       | vm_compute; reflexivity
       | cbn [host_expansions]; apply lookup_older_cell;
         first [exact Hm | exact Hr]
       | let p := fresh "p" in
         let Hp := fresh "Hp" in
         intros p Hp; vm_compute in Hp; injection Hp as <-;
         vm_compute; reflexivity
       | reflexivity ]);
    reflexivity
  | do 2 apply globals_ok_app; by split ].

Ltac run_loop :=
  apply for_in_independent;
  match goal with
  | |- Forall ?P ?xs =>
      let xs' := eval vm_compute in xs in
      change (Forall P xs')
  end;
  repeat apply Forall_cons_2; try apply Forall_nil_2.

Lemma create_server_variants_independent :
  heap_independent create_server_variants.
Proof.
  unfold create_server_variants. cbv zeta.
  apply bind_independent; [|intros variants1].
  { run_loop; run_iteration. }
  apply bind_independent; [|intros variants2].
  { run_loop; run_iteration. }
  apply bind_independent; [|intros variants3; apply ret_independent].
  run_loop; intros variants; (run_loop; run_iteration).
Qed.

(** ** The compatibility matrix *)

Lemma create_server_variants_runs (h : heap) :
  globals_ok h ->
  exists h',
    create_server_variants h
    = (fst (create_server_variants init_heap), h')
    /\ globals_ok h'
    /\ exists vs, fst (create_server_variants init_heap) = Ok vs.
Proof.
  intros Hh. destruct create_server_variants_independent as [vs Hvs].
  destruct (Hvs init_heap globals_ok_init) as (h0 & Hrun0 & _).
  destruct (Hvs h Hh) as (h' & Hrun & Hh').
  exists h'. rewrite Hrun0. simpl. eauto.
Qed.

(** C4: in the list that one run of [create_server_variants] produces, every
    name is the display name lowercased with hyphens for spaces, and no two
    of the 37 variants have the same name. *)
Theorem server_variant_names_unique (h : heap) :
  globals_ok h ->
  exists vs,
    fst (create_server_variants h) = Ok vs
    /\ length vs = 37
    /\ Forall (fun v => name v
                        = Str.lower (Str.replace " " "-" (display_name v))) vs
    /\ NoDup (map name vs).
Proof.
  intros Hh.
  destruct (create_server_variants_runs h Hh) as (h' & Hrun & _ & vs & Hvs).
  exists vs. rewrite Hrun. cbn [fst]. split; [exact Hvs|].
  vm_compute in Hvs. injection Hvs as <-.
  split; [reflexivity|]. split.
  - repeat apply Forall_cons_2; try apply Forall_nil_2; reflexivity.
  - apply (bool_decide_unpack _). vm_compute. exact I.
Qed.

Lemma server_variant_names_unique_witness :
  exists vs,
    fst (create_server_variants init_heap) = Ok vs
    /\ length vs = 37
    /\ Forall (fun v => name v
                        = Str.lower (Str.replace " " "-" (display_name v))) vs
    /\ NoDup (map name vs).
Proof.
  apply (server_variant_names_unique init_heap). split; reflexivity.
Defined.

(** ** The certificate-validation matrix *)

(** The first iteration of the first loop passes the version and the
    interpreter to [get_display_name] positionally, and the call is
    rejected; only the shared [expansions] dict has been allocated. *)
Lemma create_ocsp_variants_run (h : heap) :
  create_ocsp_variants h = (Err display_name_arity_error, h ++ [ocsp_expansions]).
Proof. reflexivity. Qed.

Lemma call_get_display_name_arity (a b c : string) (rest : list string)
    (kwargs : pydict) :
  call_get_display_name (a :: b :: c :: rest) kwargs = Err display_name_arity_error.
Proof. reflexivity. Qed.

(** C2: [create_ocsp_variants] does not return a list.  Its Linux
    enumeration is the cyclic zip of the seven server versions other than
    ["4.0"] with the seven interpreters, and ["4.0"] is not in it; but the
    display name of the first pair is requested with four positional
    arguments, which [get_display_name] does not accept, so every call
    raises [TypeError]. *)
Theorem create_ocsp_variants_raises :
  (forall h, fst (create_ocsp_variants h) = Err display_name_arity_error)
  /\ (forall h vs, fst (create_ocsp_variants h) <> Ok vs)
  /\ ocsp_linux_enumeration
     = [[IStr "4.4"; IStr "3.9"]; [IStr "5.0"; IStr "3.10"];
        [IStr "6.0"; IStr "3.11"]; [IStr "7.0"; IStr "3.12"];
        [IStr "8.0"; IStr "3.13"]; [IStr "rapid"; IStr "pypy3.9"];
        [IStr "latest"; IStr "pypy3.10"]]
  /\ Forall (fun t => IStr "4.0" ∉ t) ocsp_linux_enumeration
  /\ (forall base host version python kwargs,
        call_get_display_name [base; host; version; python] kwargs
        = Err display_name_arity_error).
Proof.
  split; [|split; [|split; [|split]]].
  - intros h. by rewrite create_ocsp_variants_run.
  - intros h vs. by rewrite create_ocsp_variants_run.
  - reflexivity.
  - apply (bool_decide_unpack _). vm_compute. exact I.
  - intros. apply call_get_display_name_arity.
Qed.

(** ** Determinism *)

Lemma generate_config_run serializer (h h' : heap) (vs : list BuildVariant) :
  create_server_variants h = (Ok vs, h') ->
  generate_config serializer h = (Ok (generate_yaml serializer vs), h').
Proof. intros Hrun. unfold generate_config. by rewrite (run_bind _ _ _ _ _ Hrun). Qed.

(** C5: generation is deterministic.  From any two states of the process in
    which the compiled-in host defaults are in place, in particular from the
    state at start-up and from the state a previous run has left behind,
    [create_server_variants] produces the same list of variants, and so the
    script prints the same text, whatever the serializer; the certificate
    matrix ends the same way in both as well; and a run changes no dict
    object that existed before it. *)
Theorem generation_deterministic (h1 h2 : heap) :
  globals_ok h1 -> globals_ok h2 ->
  exists vs,
    fst (create_server_variants h1) = Ok vs
    /\ fst (create_server_variants h2) = Ok vs
    /\ fst (create_server_variants (snd (create_server_variants h1))) = Ok vs
    /\ fst (create_ocsp_variants h1) = fst (create_ocsp_variants h2)
    /\ (forall a d, h1 !! a = Some d ->
                    snd (create_server_variants h1) !! a = Some d)
    /\ forall serializer,
         fst (generate_config serializer h1) = Ok (generate_yaml serializer vs)
         /\ fst (generate_config serializer h2) = Ok (generate_yaml serializer vs)
         /\ fst (generate_config serializer (snd (generate_config serializer h1)))
            = Ok (generate_yaml serializer vs).
Proof.
  intros Hh1 Hh2.
  assert (forall a d, h1 !! a = Some d ->
                      snd (create_server_variants h1) !! a = Some d) as Hframe.
  { intros a d Ha.
    destruct (create_server_variants_frames h1 h1) as [Hpre _]; [done|].
    by eapply prefix_lookup_Some. }
  destruct (create_server_variants_runs h1 Hh1) as (h1' & Hrun1 & Hh1' & vs & Hvs).
  destruct (create_server_variants_runs h2 Hh2) as (h2' & Hrun2 & _ & _).
  destruct (create_server_variants_runs h1' Hh1') as (h1'' & Hrun3 & _ & _).
  rewrite Hvs in Hrun1, Hrun2, Hrun3.
  exists vs. rewrite Hrun1 in Hframe |- *. rewrite Hrun2.
  cbn [fst snd] in Hframe |- *. rewrite Hrun3. cbn [fst].
  split; [done|]. split; [done|]. split; [done|]. split; [|split].
  - by rewrite !create_ocsp_variants_run.
  - exact Hframe.
  - intros serializer.
    rewrite (generate_config_run serializer _ _ _ Hrun1).
    rewrite (generate_config_run serializer _ _ _ Hrun2).
    cbn [fst snd].
    rewrite (generate_config_run serializer _ _ _ Hrun3).
    cbn [fst]. repeat split; reflexivity.
Qed.

Lemma generation_deterministic_witness :
  exists vs,
    fst (create_server_variants init_heap) = Ok vs
    /\ fst (create_server_variants (snd (create_ocsp_variants init_heap))) = Ok vs
    /\ fst (create_server_variants (snd (create_server_variants init_heap))) = Ok vs.
Proof.
  destruct (generation_deterministic init_heap
              (snd (create_ocsp_variants init_heap)))
    as (vs & H1 & H2 & H3 & _).
  - split; reflexivity.
  - split; reflexivity.
  - exists vs. split; [exact H1|]. split; [exact H2 | exact H3].
Defined.

(** * Further properties of the helpers *)

(** ** Strings *)

Lemma length_append (a b : string) :
  String.length (a +:+ b) = String.length a + String.length b.
Proof. induction a as [|c a IH]; simpl; [done | by rewrite IH]. Qed.

Lemma append_cancel_l (s a b : string) : s +:+ a = s +:+ b -> a = b.
Proof.
  induction s as [|c s IH]; simpl; [done|]. intros [= H]. by apply IH.
Qed.

Lemma append_cancel_r (s : string) :
  forall a b, a +:+ s = b +:+ s -> a = b.
Proof.
  induction a as [|c a IH]; intros [|c' b] H.
  - done.
  - exfalso. apply (f_equal String.length) in H.
    change (String.length s = S (String.length (b +:+ s))) in H.
    rewrite length_append in H. lia.
  - exfalso. apply (f_equal String.length) in H.
    change (S (String.length (a +:+ s)) = String.length s) in H.
    rewrite length_append in H. lia.
  - change (String c (a +:+ s) = String c' (b +:+ s)) in H.
    injection H as -> H. f_equal. by apply IH.
Qed.

Lemma all_chars_append (p : ascii -> bool) (a b : string) :
  all_chars p (a +:+ b) = all_chars p a && all_chars p b.
Proof.
  induction a as [|c a IH]; simpl; [done|]. by rewrite IH, andb_assoc.
Qed.

Lemma replace_removes (c : ascii) (s : string) :
  all_chars (not_char c) (Str.replace c "" s) = true.
Proof.
  induction s as [|x s IH]; simpl; [done|].
  destruct (Ascii.eqb x c) eqn:Hx; simpl; [done|].
  unfold not_char at 1. by rewrite Hx, IH.
Qed.

Lemma replace_absent (c : ascii) (new s : string) :
  all_chars (not_char c) s = true -> Str.replace c new s = s.
Proof.
  induction s as [|x s IH]; simpl; [done|].
  unfold not_char at 1. intros [Hx Hs]%andb_true_iff.
  apply negb_true_iff in Hx. rewrite Hx. by rewrite IH.
Qed.

(** ** Interpreter paths *)

(** The interpreter path is defined exactly for the registered hosts: for a
    host of [HOSTS] a path is returned whatever the version, and for any
    other host the call raises the [ValueError] that names the version and
    the host. *)
Theorem get_python_binary_defined_on_registry (python host : string) :
  (has_key host HOSTS = true ->
   exists path, get_python_binary python host = Ok path)
  /\ (has_key host HOSTS = false ->
      get_python_binary python host
      = Err (ValueError ("no match found for python " +:+ python
                         +:+ " on " +:+ host))).
Proof.
  unfold get_python_binary, has_key, HOSTS, Str.mem. cbn [assoc existsb].
  destruct (String.eqb host "rhel8") eqn:Hrhel8;
    destruct (String.eqb host "win64") eqn:Hwin64;
    destruct (String.eqb host "win32") eqn:Hwin32;
    destruct (String.eqb host "macos") eqn:Hmacos;
    destruct (String.eqb host "macos-arm64") eqn:Harm;
    cbn; split; intros; try discriminate; eauto.
Qed.

(** On the rhel8 and macOS hosts the path determines the version: two
    versions that resolve to the same path are the same. *)
Theorem get_python_binary_injective (host p1 p2 path : string) :
  Str.mem host ["rhel8"; "macos"; "macos-arm64"] = true ->
  get_python_binary p1 host = Ok path ->
  get_python_binary p2 host = Ok path ->
  p1 = p2.
Proof.
  unfold get_python_binary, Str.mem. cbn [existsb].
  destruct (String.eqb_spec host "rhel8") as [->|_].
  { intros _ [= <-] [= H]. cbn in H.
    apply append_cancel_l in H. by apply append_cancel_r in H. }
  destruct (String.eqb_spec host "macos") as [->|_].
  { intros _ [= <-] [= H]. cbn in H.
    apply append_cancel_l in H. by apply append_cancel_r in H. }
  destruct (String.eqb_spec host "macos-arm64") as [->|_]; [|done].
  intros _ [= <-] [= H]. cbn in H.
  apply append_cancel_l in H. by apply append_cancel_r in H.
Qed.

Lemma get_python_binary_injective_witness : "3.9"%string = "3.9"%string.
Proof.
  apply (get_python_binary_injective "macos" "3.9" "3.9"
           "/Library/Frameworks/Python.Framework/Versions/3.9/bin/python3");
    reflexivity.
Defined.

(** On the Windows hosts the version enters the path with its dots removed:
    the segment holds no dot, it is the version itself when that has none,
    and two versions resolve to the same path exactly when they agree once
    their dots are removed. *)
Theorem get_python_binary_windows (host p1 p2 : string) :
  Str.mem host ["win64"; "win32"] = true ->
  exists base,
    get_python_binary p1 host
    = Ok (base +:+ "/Python" +:+ Str.replace "." "" p1 +:+ "/python.exe")
    /\ all_chars (not_char ".") (Str.replace "." "" p1) = true
    /\ (all_chars (not_char ".") p1 = true -> Str.replace "." "" p1 = p1)
    /\ (get_python_binary p1 host = get_python_binary p2 host
        <-> Str.replace "." "" p1 = Str.replace "." "" p2).
Proof.
  intros Hhost. unfold get_python_binary. rewrite Hhost.
  exists (if String.eqb host "win32" then "C:/python/32" else "C:/python")%string.
  split; [done|]. split; [apply replace_removes|].
  split; [apply replace_absent|]. split.
  - intros [= H]. apply append_cancel_l in H.
    change ("/Python" +:+ Str.replace "." "" p1 +:+ "/python.exe"
            = "/Python" +:+ Str.replace "." "" p2 +:+ "/python.exe") in H.
    apply append_cancel_l in H. by apply append_cancel_r in H.
  - by intros ->.
Qed.

Lemma get_python_binary_windows_witness :
  get_python_binary "3.10" "win64" = get_python_binary "31.0" "win64".
Proof.
  destruct (get_python_binary_windows "win64" "3.10" "31.0" eq_refl)
    as (base & _ & _ & _ & Hiff).
  apply Hiff. reflexivity.
Defined.

(** ** Display names: outcome, errors and composition *)

Lemma display_loop_outcome (kwargs : pydict) :
  forall acc,
    display_loop acc kwargs
    = match axis_tokens kwargs with
      | Ok tokens => Ok (append_tokens acc tokens)
      | Err e => Err e
      end.
Proof.
  induction kwargs as [|[key value] rest IH]; intros acc; simpl; [done|].
  destruct (axis_token key value) as [t|e]; simpl; [|done].
  rewrite IH. by destruct (axis_tokens rest).
Qed.

Lemma display_loop_app (kw1 kw2 : pydict) :
  forall acc,
    display_loop acc (kw1 ++ kw2)
    = (do? d <- display_loop acc kw1 ;; display_loop d kw2).
Proof.
  induction kw1 as [|[key value] rest IH]; intros acc; simpl; [done|].
  destruct (axis_token key value) as [t|e]; simpl; [|done]. apply IH.
Qed.

(** [get_display_name] in one formula: an unregistered host gives
    [KeyError] for the host, whatever the bindings; otherwise the bindings
    are formatted in order, the first one that does not format gives the
    error of the call, and when all format the name is the base, the
    host's label and the tokens, separated by single spaces. *)
Theorem get_display_name_outcome (base host : string) (kwargs : pydict) :
  get_display_name base host kwargs = display_name_outcome base host kwargs.
Proof.
  unfold get_display_name, display_name_outcome, subscript.
  destruct (assoc host HOSTS) as [profile|]; simpl; [|done].
  apply display_loop_outcome.
Qed.

(** A binding of a table axis whose value the axis' table does not have
    makes the call raise [KeyError] for that value, once the host is
    registered and the bindings before it format. *)
Theorem get_display_name_unknown_value (base host : string) (pre post : pydict)
    (key value : string) (table : pydict) (profile : Host)
    (tokens : list string) :
  key <> "version"%string -> key <> "python"%string ->
  assoc (Str.lower key) DISPLAY_LOOKUP = Some table ->
  assoc value table = None ->
  subscript HOSTS host = Ok profile ->
  axis_tokens pre = Ok tokens ->
  get_display_name base host (pre ++ (key, value) :: post)
  = Err (KeyError value).
Proof.
  intros Hv Hp Htable Hvalue Hhost Hpre.
  assert (axis_token key value = Err (KeyError value)) as Htok.
  { unfold axis_token, has_key, subscript.
    apply eqb_false_iff in Hv, Hp. rewrite Hv, Hp, Htable. simpl.
    by rewrite Hvalue. }
  unfold get_display_name. rewrite Hhost. simpl.
  rewrite display_loop_app, (display_loop_outcome pre), Hpre. simpl.
  by rewrite Htok.
Qed.

Lemma get_display_name_unknown_value_witness :
  get_display_name "Test" "win64"
    ([("python", "3.9")] ++ ("SSL", "tls") :: [("auth", "auth")])
  = Err (KeyError "tls").
Proof.
  apply (get_display_name_unknown_value "Test" "win64" [("python", "3.9")]
           [("auth", "auth")] "SSL" "tls"
           [("ssl", "SSL"); ("nossl", "NoSSL")]
           (mkHost "win64" "windows-64-vsMulti-small" "Win64" macos_expansions_ref)
           ["py3.9"%string]);
    first [discriminate | reflexivity].
Defined.

(** Display names compose: appending bindings to a call that succeeded
    appends their tokens to its name. *)
Theorem get_display_name_extends (base host : string) (kw1 kw2 : pydict)
    (d : string) (tokens : list string) :
  get_display_name base host kw1 = Ok d ->
  axis_tokens kw2 = Ok tokens ->
  get_display_name base host (kw1 ++ kw2) = Ok (append_tokens d tokens).
Proof.
  unfold get_display_name. destruct (subscript HOSTS host); simpl; [|done].
  intros Hd Htok. rewrite display_loop_app, Hd. simpl.
  by rewrite display_loop_outcome, Htok.
Qed.

Lemma get_display_name_extends_witness :
  get_display_name "Test" "rhel8" ([("python", "3.9")] ++ [("SSL", "nossl")])
  = Ok "Test RHEL8 py3.9 NoSSL"%string.
Proof.
  apply (get_display_name_extends "Test" "rhel8" [("python", "3.9")]
           [("SSL", "nossl")] "Test RHEL8 py3.9" ["NoSSL"%string]);
    reflexivity.
Defined.

Lemma table_key_not_special (key : string) :
  has_key (Str.lower key) DISPLAY_LOOKUP = true ->
  String.eqb key "version" = false /\ String.eqb key "python" = false.
Proof.
  intros Hkey. split.
  - destruct (String.eqb_spec key "version") as [->|]; [discriminate | done].
  - destruct (String.eqb_spec key "python") as [->|]; [discriminate | done].
Qed.

Lemma axis_token_table_key (k1 k2 value : string) :
  Str.lower k1 = Str.lower k2 ->
  has_key (Str.lower k1) DISPLAY_LOOKUP = true ->
  axis_token k1 value = axis_token k2 value.
Proof.
  intros Hlower Hkey.
  destruct (table_key_not_special k1 Hkey) as [Hv1 Hp1].
  rewrite Hlower in Hkey.
  destruct (table_key_not_special k2 Hkey) as [Hv2 Hp2].
  unfold axis_token. by rewrite Hv1, Hp1, Hv2, Hp2, Hlower, Hkey.
Qed.

(** The keys of the table axes are matched without regard to case: two
    lists of bindings whose keys agree up to case, with the same values,
    give the same result. *)
Theorem get_display_name_table_keys_ignore_case (base host : string)
    (kw1 kw2 : pydict) :
  Forall2 (fun b1 b2 =>
             Str.lower (fst b1) = Str.lower (fst b2)
             /\ snd b1 = snd b2
             /\ has_key (Str.lower (fst b1)) DISPLAY_LOOKUP = true) kw1 kw2 ->
  get_display_name base host kw1 = get_display_name base host kw2.
Proof.
  intros Hkw. unfold get_display_name.
  destruct (subscript HOSTS host) as [profile|]; simpl; [|done].
  generalize (base +:+ " " +:+ host_display_name profile).
  induction Hkw as [|[k1 v1] [k2 v2] kw1 kw2 (Hlower & Hval & Hkey) _ IH];
    intros acc; simpl in *; [done|].
  subst v2. rewrite (axis_token_table_key k1 k2 v1 Hlower Hkey).
  destruct (axis_token k2 v1); simpl; [apply IH | done].
Qed.

Lemma get_display_name_table_keys_ignore_case_witness :
  get_display_name "Test" "macos" [("AUTH", "auth"); ("Ssl", "ssl")]
  = get_display_name "Test" "macos" [("auth", "auth"); ("SSL", "ssl")].
Proof.
  apply get_display_name_table_keys_ignore_case.
  repeat constructor.
Defined.

(** The two formatted axes are matched exactly: a key that is ["version"]
    or ["python"] only up to case has no formatting rule, and is rejected
    by the guard. *)
Theorem axis_token_special_keys_case_sensitive (key value : string) :
  key <> "version"%string -> key <> "python"%string ->
  Str.lower key = "version"%string \/ Str.lower key = "python"%string ->
  axis_token key value
  = Err (ValueError ("Missing display handling for " +:+ key)).
Proof.
  intros Hv Hp Hlower. apply axis_token_unrecognized; [done | done |].
  by destruct Hlower as [-> | ->].
Qed.

Lemma axis_token_special_keys_case_sensitive_witness :
  axis_token "Python" "3.9"
  = Err (ValueError "Missing display handling for Python").
Proof.
  apply (axis_token_special_keys_case_sensitive "Python" "3.9");
    [discriminate | discriminate | right; reflexivity].
Defined.

(** ** The cyclic zip: coverage, the longest input, emptiness *)

Lemma length_le_max_length {A} (its : list (list A)) (j : nat) (xs : list A) :
  its !! j = Some xs -> length xs <= max_length its.
Proof.
  revert j. induction its as [|ys its IH]; intros [|j] Hj; simpl in *;
    try done.
  - injection Hj as ->. unfold max_length. simpl. lia.
  - apply IH in Hj. unfold max_length in *. simpl. lia.
Qed.

Lemma max_length_zero {A} (its : list (list A)) :
  max_length its = 0 <-> Forall (fun xs => xs = []) its.
Proof.
  induction its as [|xs its IH]; simpl.
  - split; [constructor | done].
  - unfold max_length in *. simpl. split.
    + intros Hmax. constructor.
      * destruct xs; [done | simpl in Hmax; lia].
      * apply IH. lia.
    + intros Hall. apply Forall_cons in Hall as [-> Hall].
      apply IH in Hall. simpl. lia.
Qed.

(** Every value of every input reaches the output: the element at position
    [p] of input [j] is slot [j] of tuple [p].  Cycling the shorter inputs
    never drops a value of any axis. *)
Theorem zip_cycle_covers {A} (its : list (list A)) (d : A) (j p : nat)
    (xs : list A) (x : A) :
  its !! j = Some xs ->
  xs !! p = Some x ->
  exists row, zip_cycle its d !! p = Some row /\ row !! j = Some x.
Proof.
  intros Hj Hp.
  assert (p < length xs) as Hlt by (by eapply lookup_lt_Some).
  pose proof (length_le_max_length its j xs Hj) as Hmax.
  rewrite zip_cycle_closed.
  exists (map (fun ys => slot ys d p) its).
  rewrite list_lookup_fmap, lookup_seq_lt by lia. split; [done|].
  rewrite list_lookup_fmap, Hj. simpl. f_equal.
  unfold slot. destruct xs as [|y ys]; [done|].
  rewrite Nat.mod_small by done. by rewrite Hp.
Qed.

Lemma zip_cycle_covers_witness :
  exists row,
    zip_cycle [["a"; "b"; "c"]; ["x"; "y"]] ""%string !! 1 = Some row
    /\ row !! 1 = Some "y"%string.
Proof.
  apply (zip_cycle_covers [["a"; "b"; "c"]; ["x"; "y"]] ""%string 1 1
           ["x"; "y"]%string "y"%string);
    reflexivity.
Defined.

(** An input of the greatest length passes through unchanged: its column of
    the output is the input itself, in order, without repetition. *)
Theorem zip_cycle_longest_column {A} (its : list (list A)) (d : A) (j : nat)
    (xs : list A) :
  its !! j = Some xs ->
  length xs = max_length its ->
  map (fun row => row !! j) (zip_cycle its d) = map Some xs.
Proof.
  intros Hj Hlen. rewrite zip_cycle_closed, <- Hlen.
  apply list_eq. intros i.
  rewrite !list_lookup_fmap.
  destruct (decide (i < length xs)) as [Hi|Hi].
  - rewrite lookup_seq_lt by done. simpl.
    rewrite list_lookup_fmap, Hj. simpl.
    destruct (lookup_lt_is_Some_2 xs i Hi) as [x Hx]. rewrite Hx. simpl.
    do 2 f_equal. unfold slot. destruct xs as [|y ys]; [done|].
    rewrite Nat.mod_small by done. by rewrite Hx.
  - rewrite lookup_seq_ge by lia. simpl.
    by rewrite lookup_ge_None_2 by lia.
Qed.

Lemma zip_cycle_longest_column_witness :
  map (fun row => row !! 0) (zip_cycle [[1; 2; 3]; [7; 8]] 0)
  = map Some [1; 2; 3].
Proof.
  apply (zip_cycle_longest_column [[1; 2; 3]; [7; 8]] 0 0 [1; 2; 3]);
    reflexivity.
Defined.

(** The output is empty exactly when there is nothing to iterate: no
    inputs, or only empty ones.  One non-empty input is enough for the
    empty ones to be filled with the default. *)
Theorem zip_cycle_empty_iff {A} (its : list (list A)) (d : A) :
  zip_cycle its d = [] <-> Forall (fun xs => xs = []) its.
Proof.
  rewrite <- max_length_zero, zip_cycle_closed. split.
  - intros Hnil. apply (f_equal length) in Hnil.
    by rewrite length_map, length_seq in Hnil.
  - by intros ->.
Qed.

(** ** Variant names *)

Lemma lower_char_not_upper (c : ascii) : is_upper (Str.lower_char c) = false.
Proof. destruct c as [[] [] [] [] [] [] [] []]; reflexivity. Qed.

Lemma lower_char_idempotent (c : ascii) :
  Str.lower_char (Str.lower_char c) = Str.lower_char c.
Proof. destruct c as [[] [] [] [] [] [] [] []]; reflexivity. Qed.

Lemma lower_char_not_space (c : ascii) :
  not_char " " c = true -> not_char " " (Str.lower_char c) = true.
Proof. destruct c as [[] [] [] [] [] [] [] []]; intros H; exact H || reflexivity. Qed.

Lemma replace_space_cons (c : ascii) (s : string) :
  Str.replace " " "-" (String c s)
  = String (if Ascii.eqb c " " then "-"%char else c) (Str.replace " " "-" s).
Proof. simpl. by destruct (Ascii.eqb c " "). Qed.

Lemma variant_name_cons (c : ascii) (s : string) :
  variant_name (String c s)
  = String (Str.lower_char (if Ascii.eqb c " " then "-"%char else c))
      (variant_name s).
Proof. unfold variant_name. by rewrite replace_space_cons. Qed.

Lemma lower_char_ascii (c : ascii) :
  is_ascii c = true -> is_ascii (Str.lower_char c) = true.
Proof. destruct c as [[] [] [] [] [] [] [] []]; intros H; exact H || reflexivity. Qed.

Lemma variant_name_ascii (display : string) :
  all_chars is_ascii display = true ->
  all_chars is_ascii (variant_name display) = true.
Proof.
  induction display as [|c s IH]; [done|].
  intros Hall. simpl in Hall. apply andb_true_iff in Hall as [Hc Hs].
  rewrite variant_name_cons.
  change (is_ascii (Str.lower_char (if Ascii.eqb c " " then "-"%char else c))
          && all_chars is_ascii (variant_name s) = true).
  rewrite (IH Hs), andb_true_r. apply lower_char_ascii.
  by destruct (Ascii.eqb c " ").
Qed.

Lemma variant_name_slug (display : string) :
  String.length (variant_name display) = String.length display
  /\ all_chars (not_char " ") (variant_name display) = true
  /\ all_chars (fun c => negb (is_upper c)) (variant_name display) = true
  /\ variant_name (variant_name display) = variant_name display.
Proof.
  induction display as [|c s (Hlen & Hspace & Hupper & Hidem)].
  { by repeat split. }
  rewrite !variant_name_cons.
  set (c' := if Ascii.eqb c " " then "-"%char else c).
  assert (not_char " " c' = true) as Hc'.
  { unfold c', not_char. destruct (Ascii.eqb c " ") eqn:Hc; [done|].
    by rewrite Hc. }
  pose proof (lower_char_not_space c' Hc') as Hlc.
  split; [simpl; by rewrite Hlen|].
  split; [simpl; by rewrite Hlc, Hspace|].
  split; [simpl; by rewrite lower_char_not_upper, Hupper|].
  unfold not_char in Hlc. apply negb_true_iff in Hlc. rewrite Hlc.
  by rewrite lower_char_idempotent, Hidem.
Qed.

(** The name derived from an ASCII display name is a slug: ASCII text as
    long as the display name, free of spaces and of upper-case letters, and
    unchanged by deriving again. *)
Theorem variant_name_is_slug (display : string) :
  all_chars is_ascii display = true ->
  all_chars is_ascii (variant_name display) = true
  /\ String.length (variant_name display) = String.length display
  /\ all_chars (not_char " ") (variant_name display) = true
  /\ all_chars (fun c => negb (is_upper c)) (variant_name display) = true
  /\ variant_name (variant_name display) = variant_name display.
Proof.
  intros Hascii. split; [by apply variant_name_ascii | apply variant_name_slug].
Qed.

Lemma variant_name_is_slug_witness :
  variant_name "Test RHEL8 py3.9 Auth" = "test-rhel8-py3.9-auth"%string
  /\ String.length (variant_name "Test RHEL8 py3.9 Auth") = 21
  /\ variant_name (variant_name "Test RHEL8 py3.9 Auth")
     = variant_name "Test RHEL8 py3.9 Auth".
Proof.
  destruct (variant_name_is_slug "Test RHEL8 py3.9 Auth")
    as (_ & Hlen & _ & _ & Hidem).
  - reflexivity.
  - split; [reflexivity|]. split; [exact Hlen | exact Hidem].
Defined.

(** ** The variant factory: what a successful call returns *)

Lemma keys_set (k v : string) (d : pydict) :
  map fst (Dict.set k v d)
  = if Dict.mem k d then map fst d else map fst d ++ [k].
Proof.
  unfold Dict.mem. induction d as [|[k0 v0] d IH]; simpl; [done|].
  destruct (String.eqb k k0); simpl; [done|].
  rewrite IH. by destruct (Dict.get k d).
Qed.

Lemma mem_false_not_key (k : string) (d : pydict) :
  Dict.mem k d = false -> k ∉ map fst d.
Proof.
  unfold Dict.mem. induction d as [|[k0 v0] d IH]; simpl.
  - intros _. apply not_elem_of_nil.
  - destruct (String.eqb_spec k k0) as [->|Hne]; [done|].
    intros Hk. apply not_elem_of_cons. split; [done | by apply IH].
Qed.

Lemma keys_set_prefix (k v : string) (d : pydict) :
  map fst d `prefix_of` map fst (Dict.set k v d).
Proof.
  rewrite keys_set. destruct (Dict.mem k d); [done | by apply prefix_app_r].
Qed.

Lemma keys_set_nodup (k v : string) (d : pydict) :
  NoDup (map fst d) -> NoDup (map fst (Dict.set k v d)).
Proof.
  intros Hd. rewrite keys_set. destruct (Dict.mem k d) eqn:Hk; [done|].
  apply NoDup_app. split; [done|]. split.
  - intros x Hx Hx'. apply list_elem_of_singleton in Hx'. subst x.
    by apply (mem_false_not_key _ _ Hk).
  - apply NoDup_singleton.
Qed.

Lemma keys_update (other : pydict) :
  forall d,
    map fst d `prefix_of` map fst (Dict.update d other)
    /\ (NoDup (map fst d) -> NoDup (map fst (Dict.update d other))).
Proof.
  unfold Dict.update.
  induction other as [|[k v] other IH]; intros d; simpl; [done|].
  destruct (IH (Dict.set k v d)) as [Hpre Hnodup]. split.
  - etrans; [apply keys_set_prefix | exact Hpre].
  - intros Hd. by apply Hnodup, keys_set_nodup.
Qed.

Lemma keys_merged python version binary (caller defaults : pydict) :
  map fst caller
    `prefix_of` map fst (merged_expansions python version binary caller defaults)
  /\ (NoDup (map fst caller) ->
      NoDup (map fst (merged_expansions python version binary caller defaults))).
Proof.
  unfold merged_expansions.
  set (d1 := match truthy python with
             | Some _ => Dict.set "PYTHON_BINARY" binary caller
             | None => caller
             end).
  set (d2 := match truthy version with
             | Some v => Dict.set "VERSION" v d1
             | None => d1
             end).
  assert (map fst caller `prefix_of` map fst d1
          /\ (NoDup (map fst caller) -> NoDup (map fst d1))) as [Hp1 Hn1].
  { unfold d1. destruct (truthy python); [|done].
    split; [apply keys_set_prefix | apply keys_set_nodup]. }
  assert (map fst d1 `prefix_of` map fst d2
          /\ (NoDup (map fst d1) -> NoDup (map fst d2))) as [Hp2 Hn2].
  { unfold d2. destruct (truthy version); [|done].
    split; [apply keys_set_prefix | apply keys_set_nodup]. }
  destruct (keys_update defaults d2) as [Hp3 Hn3]. split.
  - etrans; [exact Hp1|]. etrans; [exact Hp2 | exact Hp3].
  - intros Hc. by apply Hn3, Hn2, Hn1.
Qed.

(** With a registered host, an ASCII display name and the dicts in place,
    the call has one of two outcomes.  When the other keyword arguments
    name a field that [create_variant] passes to [BuildVariant] itself, the
    call raises [TypeError].  Otherwise it returns a variant that has the
    slug of the display name as its name, the display name as given, one
    task reference per task name in order, the scheduling pool of the host
    as its only [run_on], and the other keyword arguments untouched. *)
Theorem create_variant_fields task_names display python version host exps kwargs
    (h : heap) (caller defaults : pydict) (profile : Host) (binary : string) :
  caller_holds h exps caller ->
  subscript HOSTS (host_or_default host) = Ok profile ->
  h !! host_expansions profile = Some defaults ->
  (forall p, truthy python = Some p ->
             get_python_binary p (host_or_default host) = Ok binary) ->
  all_chars is_ascii display = true ->
  match repeated_keyword kwargs with
  | Some keyword =>
      Str.mem keyword BUILD_VARIANT_KEYWORDS = true
      /\ exists msg,
           fst (create_variant task_names display python version host exps
                  kwargs h)
           = Err (TypeError msg)
  | None =>
      exists v,
        fst (create_variant task_names display python version host exps
               kwargs h)
        = Ok v
        /\ name v = variant_name display
        /\ all_chars is_ascii (name v) = true
        /\ all_chars (not_char " ") (name v) = true
        /\ all_chars (fun c => negb (is_upper c)) (name v) = true
        /\ display_name v = display
        /\ map task_name (tasks v) = task_names
        /\ run_on v = [host_run_on profile]
        /\ extra v = kwargs
  end.
Proof.
  intros Hcaller Hhost Hdefaults Hbinary Hascii.
  rewrite (create_variant_outcome _ _ _ _ _ _ _ _ _ _ _ _
             Hcaller Hhost Hdefaults Hbinary).
  destruct (repeated_keyword kwargs) as [keyword|] eqn:Hkwargs; cbn [fst].
  - split; [|by eexists].
    unfold repeated_keyword in Hkwargs.
    destruct (List.find _ kwargs) as [kv|] eqn:Hfind; [|done].
    injection Hkwargs as <-. by apply find_some in Hfind as [_ Hmem].
  - eexists. split; [reflexivity|].
    cbn [name display_name tasks run_on extra].
    destruct (variant_name_slug display) as (_ & Hspace & Hupper & _).
    pose proof (variant_name_ascii display Hascii) as Hout.
    repeat split; try done.
    rewrite map_map. simpl. apply map_id.
Qed.

Lemma create_variant_fields_witness :
  exists v,
    fst (create_variant [".standalone"; ".replica_set"] "Test Win64 py3.9"
           (Some "3.9") None (Some "win64") None [("batchtime", VInt 5)]
           init_heap) = Ok v
    /\ name v = "test-win64-py3.9"%string
    /\ map task_name (tasks v) = [".standalone"; ".replica_set"]%string
    /\ run_on v = ["windows-64-vsMulti-small"%string]
    /\ extra v = [("batchtime"%string, VInt 5)].
Proof.
  destruct (create_variant_fields [".standalone"; ".replica_set"]
              "Test Win64 py3.9" (Some "3.9") None (Some "win64") None
              [("batchtime"%string, VInt 5)] init_heap [] _macos_expansions
              (mkHost "win64" "windows-64-vsMulti-small" "Win64"
                 macos_expansions_ref)
              "C:/python/Python39/python.exe")
    as (v & Hrun & Hname & _ & _ & _ & _ & Htasks & Hrun_on & Hextra).
  - reflexivity.
  - reflexivity.
  - reflexivity.
  - intros p [= <-]. reflexivity.
  - reflexivity.
  - exists v. split; [exact Hrun|]. split; [exact Hname|].
    split; [exact Htasks|]. split; [exact Hrun_on | exact Hextra].
Defined.

(** A keyword that the function passes itself, given again by the caller:
    the call of [BuildVariant] receives it twice. *)
Example create_variant_repeated_name :
  fst (create_variant [".standalone"] "Test RHEL8" None None None None
         [("batchtime", VInt 5); ("name", VStr "mine")] init_heap)
  = Err (TypeError
           "BuildVariant() got multiple values for keyword argument 'name'").
Proof. reflexivity. Qed.

(** ** The variant factory: errors and the shape of the expansions *)

Lemma run_lift_err {A B} (r : result A) (k : A -> M B) (h : heap) (e : exn) :
  r = Err e -> bind (lift r) k h = (Err e, h).
Proof. by intros ->. Qed.

(** A host that is not in the registry makes [create_variant] raise
    [KeyError] for it: no variant is built for an unknown host. *)
Theorem create_variant_unknown_host task_names display python version host exps
    kwargs (h : heap) (caller : pydict) :
  caller_holds h exps caller ->
  has_key (host_or_default host) HOSTS = false ->
  fst (create_variant task_names display python version host exps kwargs h)
  = Err (KeyError (host_or_default host)).
Proof.
  intros Hcaller Hhost.
  unfold create_variant. fold (host_or_default host).
  rewrite run_new_dict, run_new_dict.
  assert (((h ++ [[]]) ++ [[]])
            !! match exps with Some a => a | None => length h end
          = Some caller) as Hsupplied.
  { destruct exps as [a|]; simpl in Hcaller.
    - by do 2 apply lookup_older_cell.
    - subst caller. apply lookup_older_cell, lookup_last_cell. }
  rewrite (run_read_dict _ _ _ _ Hsupplied), run_new_dict.
  erewrite run_lift_err; [done|].
  unfold subscript. unfold has_key in Hhost.
  by destruct (assoc (host_or_default host) HOSTS).
Qed.

Lemma create_variant_unknown_host_witness :
  fst (create_variant [".ocsp"] "OCSP test" (Some "3.9") None (Some "solaris")
         None [] init_heap)
  = Err (KeyError "solaris").
Proof.
  apply (create_variant_unknown_host [".ocsp"] "OCSP test" (Some "3.9") None
           (Some "solaris") None [] init_heap []);
    reflexivity.
Defined.

(** The [expansions] field of a variant that is built is a well-formed,
    non-empty mapping whenever it is present: it is never the empty mapping,
    the caller's keys come first and in the caller's order, and its keys are
    distinct when the caller's are. *)
Theorem create_variant_expansions_well_formed task_names display python version
    host exps kwargs (h : heap) (caller defaults : pydict) (profile : Host)
    (binary : string) :
  caller_holds h exps caller ->
  subscript HOSTS (host_or_default host) = Ok profile ->
  h !! host_expansions profile = Some defaults ->
  (forall p, truthy python = Some p ->
             get_python_binary p (host_or_default host) = Ok binary) ->
  repeated_keyword kwargs = None ->
  exists v,
    fst (create_variant task_names display python version host exps kwargs h)
    = Ok v
    /\ expansions v <> Some []
    /\ forall d, expansions v = Some d ->
         map fst caller `prefix_of` map fst d
         /\ (NoDup (map fst caller) -> NoDup (map fst d)).
Proof.
  intros Hcaller Hhost Hdefaults Hbinary Hkwargs.
  rewrite (create_variant_run _ _ _ _ _ _ _ _ _ _ _ _
             Hcaller Hhost Hdefaults Hbinary Hkwargs).
  eexists. split; [reflexivity|]. cbn [expansions].
  pose proof (keys_merged python version binary caller defaults) as Hkeys.
  destruct (merged_expansions python version binary caller defaults)
    as [|kv d']; simpl.
  - split; [done|]. by intros d.
  - split; [done|]. by intros d [= <-].
Qed.

Lemma create_variant_expansions_well_formed_witness :
  exists v d,
    fst (create_variant [".standalone"] "Test macOS py3.9" (Some "3.9") None
           (Some "macos") (Some 2) [] collision_heap) = Ok v
    /\ expansions v = Some d
    /\ map fst d = ["AUTH"; "SKIP_CSOT_TESTS"; "PYTHON_BINARY"]%string
    /\ NoDup (map fst d).
Proof.
  destruct (create_variant_expansions_well_formed
              [".standalone"] "Test macOS py3.9" (Some "3.9") None
              (Some "macos") (Some 2) [] collision_heap
              [("AUTH", "auth"); ("SKIP_CSOT_TESTS", "false")]
              _macos_expansions
              (mkHost "macos" "macos-14" "macOS" macos_expansions_ref)
              "/Library/Frameworks/Python.Framework/Versions/3.9/bin/python3")
    as (v & Hrun & _ & Hwf).
  - reflexivity.
  - reflexivity.
  - reflexivity.
  - intros p [= <-]. reflexivity.
  - reflexivity.
  - exists v. vm_compute in Hrun. injection Hrun as <-.
    eexists. split; [reflexivity|]. split; [reflexivity|].
    split; [reflexivity|].
    apply (Hwf _ eq_refl). apply (bool_decide_unpack _). vm_compute. exact I.
Defined.

(** The interpreter path and the server version are written over what the
    caller supplied under [PYTHON_BINARY] and [VERSION]: when the host
    defaults do not define these keys, the result holds the resolved path
    and the given version, whatever the caller's mapping held there. *)
Theorem create_variant_injects_python_and_version task_names display python
    version host exps kwargs (h : heap) (caller defaults : pydict)
    (profile : Host) (binary p ver : string) :
  caller_holds h exps caller ->
  subscript HOSTS (host_or_default host) = Ok profile ->
  h !! host_expansions profile = Some defaults ->
  NoDup (map fst defaults) ->
  truthy python = Some p ->
  truthy version = Some ver ->
  get_python_binary p (host_or_default host) = Ok binary ->
  Dict.get "PYTHON_BINARY" defaults = None ->
  Dict.get "VERSION" defaults = None ->
  repeated_keyword kwargs = None ->
  exists v,
    fst (create_variant task_names display python version host exps kwargs h)
    = Ok v
    /\ expansion v "PYTHON_BINARY" = Some binary
    /\ expansion v "VERSION" = Some ver.
Proof.
  intros Hcaller Hhost Hdefaults Hnodup Hp Hver Hbinary Hnopy Hnover Hkwargs.
  assert (forall p', truthy python = Some p' ->
                     get_python_binary p' (host_or_default host) = Ok binary)
    as Hbin by (intros p' Hp'; congruence).
  rewrite (create_variant_run _ _ _ _ _ _ _ _ _ _ _ _
             Hcaller Hhost Hdefaults Hbin Hkwargs).
  eexists. split; [reflexivity|].
  unfold expansion. cbn [expansions].
  rewrite !expansion_or_none, !get_merged_expansions by done.
  rewrite Hnopy, Hnover. unfold injected_lookup. rewrite Hp, Hver.
  by split.
Qed.

Lemma create_variant_injects_python_and_version_witness :
  exists v,
    fst (create_variant [".ocsp"] "OCSP test RHEL8 v8.0 py3.13" (Some "3.13")
           (Some "8.0") (Some "rhel8") (Some 2) []
           (init_heap ++ [[("VERSION", "4.4"); ("PYTHON_BINARY", "python")]]))
    = Ok v
    /\ expansion v "PYTHON_BINARY" = Some "/opt/python/3.13/bin/python3"%string
    /\ expansion v "VERSION" = Some "8.0"%string.
Proof.
  apply (create_variant_injects_python_and_version [".ocsp"]
           "OCSP test RHEL8 v8.0 py3.13" (Some "3.13") (Some "8.0")
           (Some "rhel8") (Some 2) []
           (init_heap ++ [[("VERSION", "4.4"); ("PYTHON_BINARY", "python")]])
           [("VERSION", "4.4"); ("PYTHON_BINARY", "python")] []
           (mkHost "rhel8" "rhel87-small" "RHEL8" rhel8_expansions_ref)
           "/opt/python/3.13/bin/python3" "3.13" "8.0");
    first [reflexivity | apply NoDup_nil_2].
Defined.

(** The Windows and macOS hosts share one defaults object: whatever that
    object holds, variants built for any two of these hosts from the same
    caller mapping, without interpreter or server version (and with other
    keyword arguments that name no field the function sets itself), carry
    the same expansions. *)
Theorem non_linux_hosts_share_defaults task_names display exps kwargs
    (h : heap) (caller defaults : pydict) (host1 host2 : string) :
  caller_holds h exps caller ->
  h !! macos_expansions_ref = Some defaults ->
  Str.mem host1 ["win64"; "win32"; "macos"; "macos-arm64"] = true ->
  Str.mem host2 ["win64"; "win32"; "macos"; "macos-arm64"] = true ->
  repeated_keyword kwargs = None ->
  exists v1 v2,
    fst (create_variant task_names display None None (Some host1) exps kwargs h)
    = Ok v1
    /\ fst (create_variant task_names display None None (Some host2) exps
              kwargs h) = Ok v2
    /\ expansions v1 = or_none (Dict.update caller defaults)
    /\ expansions v2 = expansions v1.
Proof.
  intros Hcaller Hdefaults Hhost1 Hhost2 Hkwargs.
  assert (forall host,
            Str.mem host ["win64"; "win32"; "macos"; "macos-arm64"] = true ->
            exists profile,
              subscript HOSTS (host_or_default (Some host)) = Ok profile
              /\ host_expansions profile = macos_expansions_ref) as Hprofile.
  { intros host. unfold Str.mem. cbn [existsb].
    destruct (String.eqb_spec host "win64") as [->|_]; [by eexists|].
    destruct (String.eqb_spec host "win32") as [->|_]; [by eexists|].
    destruct (String.eqb_spec host "macos") as [->|_]; [by eexists|].
    destruct (String.eqb_spec host "macos-arm64") as [->|_]; [by eexists|].
    done. }
  destruct (Hprofile host1 Hhost1) as (profile1 & Hp1 & Ha1).
  destruct (Hprofile host2 Hhost2) as (profile2 & Hp2 & Ha2).
  rewrite <- Ha1 in Hdefaults.
  rewrite (create_variant_run _ _ None None _ _ _ _ _ _ _ ""
             Hcaller Hp1 Hdefaults) by done.
  rewrite Ha1, <- Ha2 in Hdefaults.
  rewrite (create_variant_run _ _ None None _ _ _ _ _ _ _ ""
             Hcaller Hp2 Hdefaults) by done.
  by do 2 eexists.
Qed.

Lemma non_linux_hosts_share_defaults_witness :
  exists v1 v2,
    fst (create_variant [".standalone"] "Test" None None (Some "win32") None []
           init_heap) = Ok v1
    /\ fst (create_variant [".standalone"] "Test" None None (Some "macos-arm64")
              None [] init_heap) = Ok v2
    /\ expansions v1 = Some [("SKIP_CSOT_TESTS", "true")]
    /\ expansions v2 = expansions v1.
Proof.
  apply (non_linux_hosts_share_defaults [".standalone"] "Test" None []
           init_heap [] _macos_expansions "win32" "macos-arm64");
    reflexivity.
Defined.

(** ** Emission: the dedent *)

Lemma append_nil_r (s : string) : s +:+ "" = s.
Proof.
  induction s as [|c s IH]; [done|].
  change (String c (s +:+ "") = String c s). by rewrite IH.
Qed.

Lemma append_snoc (a : string) (c : ascii) (l : string) :
  (a +:+ String c "") +:+ l = a +:+ String c l.
Proof.
  induction a as [|x a IH]; [done|].
  change (String x ((a +:+ String c "") +:+ l) = String x (a +:+ String c l)).
  by rewrite IH.
Qed.

Lemma append_assoc (a b c : string) : (a +:+ b) +:+ c = a +:+ b +:+ c.
Proof.
  induction a as [|x a IH]; [done|].
  change (String x ((a +:+ b) +:+ c) = String x (a +:+ b +:+ c)).
  by rewrite IH.
Qed.

Lemma splitlines_from_line (l : string) :
  forall acc rest,
    all_chars line_char l = true ->
    Str.splitlines_from acc false (l +:+ rest)
    = Str.splitlines_from (acc +:+ l) false rest.
Proof.
  induction l as [|c l IH]; intros acc rest Hl.
  - by rewrite append_nil_r.
  - simpl in Hl. apply andb_true_iff in Hl as [Hc Hl].
    apply andb_true_iff in Hc as [_ Hc]. apply negb_true_iff in Hc.
    change (String c l +:+ rest) with (String c (l +:+ rest)).
    cbn [Str.splitlines_from]. rewrite andb_false_r, Hc.
    rewrite (IH _ _ Hl). by rewrite append_snoc.
Qed.

Lemma splitlines_from_lf (acc rest : string) :
  Str.splitlines_from acc false (String Str.LF rest)
  = acc :: Str.splitlines_from "" false rest.
Proof. reflexivity. Qed.

Lemma splitlines_from_end (acc : string) :
  acc <> ""%string ->
  Str.splitlines_from acc false "" = [acc]
  /\ Str.splitlines_from acc false LFs = [acc].
Proof.
  intros Hacc. apply eqb_false_iff in Hacc. split.
  - simpl. by rewrite Hacc.
  - unfold LFs. by rewrite splitlines_from_lf.
Qed.

Lemma splitlines_join (suffix : string) (rest : list string) :
  (forall acc, acc <> ""%string -> Str.splitlines_from acc false suffix = [acc]) ->
  forall l,
    is_line l -> Forall is_line rest ->
    Str.splitlines (Str.join LFs (l :: rest) +:+ suffix) = l :: rest.
Proof.
  intros Hsuffix. unfold Str.splitlines.
  induction rest as [|l' rest IH]; intros l [Hne Hl] Hrest.
  - cbn [Str.join]. rewrite (splitlines_from_line l _ _ Hl).
    by apply Hsuffix.
  - apply Forall_cons in Hrest as [Hl' Hrest].
    change (Str.join LFs (l :: l' :: rest))
      with (l +:+ LFs +:+ Str.join LFs (l' :: rest)).
    rewrite !append_assoc.
    rewrite (splitlines_from_line l _ _ Hl).
    change (LFs +:+ Str.join LFs (l' :: rest) +:+ suffix)
      with (String Str.LF (Str.join LFs (l' :: rest) +:+ suffix)).
    rewrite splitlines_from_lf. f_equal. by apply IH.
Qed.

Lemma drop_indent (lines : list string) :
  map (Str.drop 2) (map indent2 lines) = lines.
Proof.
  induction lines as [|l lines IH]; [done|]. cbn [map]. by rewrite IH.
Qed.

Lemma is_line_indent (l : string) :
  all_chars line_char l = true -> is_line (indent2 l).
Proof. intros Hl. split; [done|]. simpl. exact Hl. Qed.

(** For a serializer whose text is ASCII lines, none of them empty, joined
    by newlines: what is printed is that text with the first two characters
    of every line removed, the lines joined by newlines, and one newline at
    the end; whether the serializer's text itself ends in a newline makes
    no difference. *)
Theorem generate_yaml_dedents (serializer : list BuildVariant -> string)
    (variants : list BuildVariant) (l : string) (rest : list string) :
  Forall is_line (l :: rest) ->
  (serializer variants = Str.join LFs (l :: rest)
   \/ serializer variants = Str.join LFs (l :: rest) +:+ LFs) ->
  generate_yaml serializer variants
  = Str.join LFs (map (Str.drop 2) (l :: rest)) +:+ LFs.
Proof.
  intros Hlines Hout. apply Forall_cons in Hlines as [Hl Hrest].
  unfold generate_yaml. fold LFs.
  assert (Str.splitlines (serializer variants) = l :: rest) as ->; [|done].
  destruct Hout as [-> | ->].
  - rewrite <- (append_nil_r (Str.join LFs (l :: rest))).
    apply splitlines_join; [|done|done].
    intros acc Hacc. by apply splitlines_from_end.
  - apply splitlines_join; [|done|done].
    intros acc Hacc. by apply splitlines_from_end.
Qed.

Lemma generate_yaml_dedents_witness :
  generate_yaml (fun _ => "  buildvariants:" +:+ LFs +:+ "    - name: a" +:+ LFs) []
  = "buildvariants:" +:+ LFs +:+ "  - name: a" +:+ LFs.
Proof.
  apply (generate_yaml_dedents
           (fun _ => "  buildvariants:" +:+ LFs +:+ "    - name: a" +:+ LFs) []
           "  buildvariants:" ["    - name: a"%string]).
  - repeat constructor; discriminate.
  - right. reflexivity.
Defined.

(** The dedent undoes a two-space indentation: text whose lines are the
    given lines of ASCII characters, each indented by two spaces, is printed
    as those lines. *)
Theorem generate_yaml_undoes_indentation
    (serializer : list BuildVariant -> string) (variants : list BuildVariant)
    (l : string) (rest : list string) :
  Forall (fun l => all_chars line_char l = true) (l :: rest) ->
  serializer variants = Str.join LFs (map indent2 (l :: rest)) +:+ LFs ->
  generate_yaml serializer variants = Str.join LFs (l :: rest) +:+ LFs.
Proof.
  intros Hlines Hout. unfold generate_yaml. fold LFs.
  assert (Str.splitlines (serializer variants) = map indent2 (l :: rest))
    as ->.
  { rewrite Hout. cbn [map]. apply splitlines_join.
    - intros acc Hacc. by apply splitlines_from_end.
    - apply is_line_indent. by apply Forall_cons in Hlines as [? _].
    - apply Forall_cons in Hlines as [_ Hrest].
      apply Forall_fmap. eapply Forall_impl; [exact Hrest|].
      intros x Hx. by apply is_line_indent. }
  by rewrite drop_indent.
Qed.

Lemma generate_yaml_undoes_indentation_witness :
  generate_yaml (fun _ => "  buildvariants:" +:+ LFs +:+ "  " +:+ LFs) []
  = "buildvariants:" +:+ LFs +:+ "" +:+ LFs.
Proof.
  apply (generate_yaml_undoes_indentation
           (fun _ => "  buildvariants:" +:+ LFs +:+ "  " +:+ LFs) []
           "buildvariants:" [""%string]).
  - repeat constructor.
  - reflexivity.
Defined.

(** ** The compatibility matrix: what it covers *)

(** Every supported interpreter, CPython or PyPy, is tested on the Linux
    host: the full matrix takes the oldest and newest CPython and the
    newest PyPy, and the second loop takes the rest. *)
Theorem server_variants_cover_every_python (h : heap) :
  globals_ok h ->
  exists vs,
    fst (create_server_variants h) = Ok vs
    /\ Forall (fun python => Exists (tests_python_on "rhel8" python) vs)
         ALL_PYTHONS.
Proof.
  intros Hh.
  destruct (create_server_variants_runs h Hh) as (h' & Hrun & _ & vs & Hvs).
  exists vs. rewrite Hrun. cbn [fst]. split; [exact Hvs|].
  vm_compute in Hvs. injection Hvs as <-.
  apply (bool_decide_unpack _). vm_compute. exact I.
Qed.

Lemma server_variants_cover_every_python_witness :
  exists vs,
    fst (create_server_variants init_heap) = Ok vs
    /\ Forall (fun python => Exists (tests_python_on "rhel8" python) vs)
         ALL_PYTHONS.
Proof.
  apply (server_variants_cover_every_python init_heap). split; reflexivity.
Defined.

(** On each of the other hosts the subset still reaches every value of
    every axis: each topology, each auth/SSL pair and both test suites
    occur among the variants of the host, which run the oldest and the
    newest CPython. *)
Theorem server_variants_cover_axes_on_other_hosts (h : heap) :
  globals_ok h ->
  exists vs,
    fst (create_server_variants h) = Ok vs
    /\ Forall
         (fun host =>
            match assoc host HOSTS with
            | None => False
            | Some profile =>
                let label := host_display_name profile in
                Forall (fun t => Exists (fun v => on_host label v
                                           /\ map task_name (tasks v) = ["." +:+ t])
                                   vs) TOPOLOGIES
                /\ Forall (fun p => Exists (fun v => on_host label v
                                              /\ expansion v "AUTH" = Some (fst p)
                                              /\ expansion v "SSL" = Some (snd p))
                                      vs) AUTH_SSLS
                /\ Forall (fun suite => Exists (fun v => on_host label v
                                                 /\ expansion v "TEST_SUITES"
                                                    = Some suite) vs)
                     ["default"; "default_async"]%string
                /\ Forall (fun python => Exists (fun v => on_host label v
                                                  /\ tests_python_on host python v)
                                           vs) MIN_MAX_PYTHON
            end)
         ["macos"; "macos-arm64"; "win64"; "win32"]%string.
Proof.
  intros Hh.
  destruct (create_server_variants_runs h Hh) as (h' & Hrun & _ & vs & Hvs).
  exists vs. rewrite Hrun. cbn [fst]. split; [exact Hvs|].
  vm_compute in Hvs. injection Hvs as <-.
  repeat apply Forall_cons_2; try apply Forall_nil_2;
    cbn [assoc String.eqb Ascii.eqb Bool.eqb host_display_name];
    (split; [|split; [|split]]);
    apply (bool_decide_unpack _); vm_compute; exact I.
Qed.

Lemma server_variants_cover_axes_on_other_hosts_witness :
  exists vs,
    fst (create_server_variants init_heap) = Ok vs
    /\ Exists (fun v => on_host "Win32" v
                        /\ expansion v "TEST_SUITES" = Some "default_async"%string)
         vs.
Proof.
  destruct (server_variants_cover_axes_on_other_hosts init_heap)
    as (vs & Hrun & Hcover); [split; reflexivity|].
  exists vs. split; [exact Hrun|].
  apply Forall_cons in Hcover as [_ Hcover].
  apply Forall_cons in Hcover as [_ Hcover].
  apply Forall_cons in Hcover as [_ Hcover].
  apply Forall_cons in Hcover as [(_ & _ & Hsuites & _) _].
  apply Forall_cons in Hsuites as [_ Hsuites].
  apply Forall_cons in Hsuites as [Hasync _].
  exact Hasync.
Defined.

(** The host defaults reach the generated matrix: a variant carries
    [SKIP_CSOT_TESTS = "true"] exactly when it does not run on the Linux
    pool; every variant has its interpreter path and its auth and SSL
    modes, and none pins a server version. *)
Theorem server_variants_expansions (h : heap) :
  globals_ok h ->
  exists vs,
    fst (create_server_variants h) = Ok vs
    /\ Forall (fun v =>
                 (expansion v "SKIP_CSOT_TESTS" = Some "true"%string
                  <-> run_on v <> ["rhel87-small"%string])
                 /\ (expansion v "SKIP_CSOT_TESTS" = None
                     <-> run_on v = ["rhel87-small"%string])
                 /\ is_Some (expansion v "PYTHON_BINARY")
                 /\ is_Some (expansion v "AUTH")
                 /\ is_Some (expansion v "SSL")
                 /\ expansion v "VERSION" = None) vs.
Proof.
  intros Hh.
  destruct (create_server_variants_runs h Hh) as (h' & Hrun & _ & vs & Hvs).
  exists vs. rewrite Hrun. cbn [fst]. split; [exact Hvs|].
  vm_compute in Hvs. injection Hvs as <-.
  apply (bool_decide_unpack _). vm_compute. exact I.
Qed.

Lemma server_variants_expansions_witness :
  exists vs,
    fst (create_server_variants init_heap) = Ok vs
    /\ Forall (fun v => expansion v "VERSION" = None) vs.
Proof.
  destruct (server_variants_expansions init_heap) as (vs & Hrun & Hall);
    [split; reflexivity|].
  exists vs. split; [exact Hrun|].
  eapply Forall_impl; [exact Hall|]. intros v H. apply H.
Defined.
